(** * The tool-augmented generation loop of the course-materials assistant

    A shallow embedding of [backend/ai_generator.py] (class [AIGenerator]:
    [generate_response] and [_execute_tools]) together with the tool layer
    it drives, and the properties of the bounded tool-calling protocol.

    The two collaborators of the loop are effectful: the language-model
    client ([client.messages.create]) and the tool manager
    ([tool_manager.execute_tool]).  Both are modelled as oracles that may
    look at everything that happened so far; the loop threads the list of
    calls it made (the trace) through a small state-and-exception monad. *)

From Stdlib Require Import ZArith QArith String Ascii List Sorted Lia.
From stdpp Require Import base option list strings gmap pretty.

Local Open Scope string_scope.
Local Open Scope list_scope.

(** ** Values exchanged with the collaborators *)

(** Arguments a tool-use request carries ([content_block.input], a JSON
    object passed on as keyword arguments). *)
Inductive JValue :=
| JNone
| JBool (b : bool)
| JInt (z : Z)
| JStr (s : string).

Abbreviation kwargs := (gmap string JValue).

(** One parameter of a tool's input schema. *)
Record SchemaProperty := {
  prop_name : string;
  prop_type : string;
  prop_description : string;
  prop_required : bool
}.

(** A tool schema as handed to the model ([tools] argument). *)
Record ToolDefinition := {
  td_name : string;
  td_description : string;
  td_input_schema : list SchemaProperty
}.

(** The content blocks of a model response form a tagged union (the
    [type] field is the tag).  A text block has a [text] attribute and
    nothing else; a tool-use block has [id], [name] and [input] and no
    [text]. *)
Inductive ContentBlock :=
| TextBlock (text : string)
| ToolUseBlock (id name : string) (input : kwargs).

Definition block_type (b : ContentBlock) : string :=
  match b with
  | TextBlock _ => "text"
  | ToolUseBlock _ _ _ => "tool_use"
  end.

Record Response := {
  stop_reason : string;
  content : list ContentBlock
}.

(** The dictionary [{"type": "tool_result", "tool_use_id": ..., "content": ...}]. *)
Record ToolResult := {
  tr_type : string;
  tool_use_id : string;
  tr_content : string
}.

(** What the [content] key of a message holds: the query text, the
    blocks of a model response, or the tool results of one round. *)
Inductive MessageContent :=
| Text (s : string)
| Blocks (bs : list ContentBlock)
| Results (rs : list ToolResult).

Record Message := {
  role : string;
  msg_content : MessageContent
}.

(** The dictionary [{"type": "auto"}]. *)
Record ToolChoice := { tc_type : string }.

(** Keyword arguments of [client.messages.create].  A key that is not set
    in the dictionary is [None]. *)
Record ApiParams := {
  p_model : string;
  p_temperature : Z;
  p_max_tokens : Z;
  p_messages : list Message;
  p_system : string;
  p_tools : option (list ToolDefinition);
  p_tool_choice : option ToolChoice
}.

(** ** Exceptions, traces and the monad of the loop *)

Inductive exn :=
| AttributeError (attr : string)
| IndexError
| APIError (msg : string)
| RuntimeError (msg : string).

Inductive outcome (A : Type) :=
| Return (a : A)
| Raise (e : exn).
Arguments Return {A} a.
Arguments Raise {A} e.

(** A call that left the generator. *)
Inductive Event :=
| ModelCall (params : ApiParams)
| ToolCall (name : string) (input : kwargs).

Definition Trace := list Event.

(** The model client: given what happened before and the parameters of
    the call, it answers with a response or raises. *)
Definition Client := Trace -> ApiParams -> outcome Response.

(** The dispatcher handed to the loop, of which the generator only uses
    [execute_tool] (the class behind it lives in [search_tools.py], which
    is not among the sources).  Like any call it returns its text or
    raises; it may look at everything that happened before. *)
Record ToolManager := {
  execute_tool : Trace -> string -> kwargs -> outcome string
}.

Definition M (A : Type) : Type := Trace -> outcome A * Trace.

Definition ret {A} (a : A) : M A := fun tr => (Return a, tr).

Definition bind {A B} (m : M A) (k : A -> M B) : M B :=
  fun tr =>
    match m tr with
    | (Return a, tr') => k a tr'
    | (Raise e, tr') => (Raise e, tr')
    end.

Notation "'do' x <- m ; k" := (bind m (fun x => k))
  (at level 10, x name, m at level 100, k at level 200).

(** [client.messages.create] applied to the keyword arguments [params]:
    the call is recorded whether it returns or raises.  The event keeps
    the messages as they are at the time of the call (the list object
    itself is extended by later rounds). *)
Definition messages_create (client : Client) (params : ApiParams)
  : M Response :=
  fun tr => (client tr params, tr ++ [ModelCall params]).

(** [tool_manager.execute_tool] applied to [name] and the keyword
    arguments [input]: the call is recorded whether it returns or
    raises. *)
Definition call_execute_tool (tm : ToolManager) (name : string)
  (input : kwargs) : M string :=
  fun tr => (execute_tool tm tr name input, tr ++ [ToolCall name input]).

Definition model_calls (tr : Trace) : list ApiParams :=
  omap (fun ev => match ev with ModelCall p => Some p | _ => None end) tr.

Definition tool_calls (tr : Trace) : list (string * kwargs) :=
  omap (fun ev => match ev with ToolCall n i => Some (n, i) | _ => None end) tr.

(** ** [AIGenerator] *)

Definition dq : string := String (ascii_of_nat 34) EmptyString.
Definition nl : string := String (ascii_of_nat 10) EmptyString.

Fixpoint join_lines (ls : list string) : string :=
  match ls with
  | [] => EmptyString
  | l :: rest => l +:+ nl +:+ join_lines rest
  end.

(** The static system prompt, line by line (the literal ends with a
    newline). *)
Definition SYSTEM_PROMPT : string :=
  join_lines [
    " You are an AI assistant specialized in course materials and educational content with access to tools for searching course information.";
    EmptyString;
    "Tool Usage Guidelines:";
    "- **Course Outline Tool** (`get_course_outline`): Use for questions about:";
    "  - Course structure or organization";
    "  - What lessons are in a course";
    "  - How many lessons a course has";
    "  - Course metadata (title, instructor, link)";
    "  - Complete lesson listings";
    "  - Returns: Course title, course link, instructor, and full lesson list with numbers and titles";
    EmptyString;
    "- **Content Search Tool** (`search_course_content`): Use for questions about:";
    "  - Specific concepts or topics within course materials";
    "  - Detailed educational content";
    "  - Answers to technical questions from course lessons";
    "  - Returns: Relevant content excerpts from courses/lessons";
    EmptyString;
    "- **Sequential Tool Usage**:";
    "  - You may use tools across up to 2 rounds to gather comprehensive information";
    "  - Use multiple rounds when you need information from one tool to inform another tool call";
    "  - Examples of valid sequential use:";
    "    * Round 1: Get course outline to identify lesson titles";
    "    * Round 2: Search for content based on the lesson information";
    "  - After gathering information, synthesize into a comprehensive answer";
    EmptyString;
    "- Synthesize tool results into accurate, fact-based responses";
    "- If no results are found, state this clearly without offering alternatives";
    EmptyString;
    "Response Protocol:";
    "- **General knowledge questions**: Answer using existing knowledge without using tools";
    "- **Course outline/structure questions**: Use the outline tool first, then answer, including the course title, course linnk, and complete lesson list in a well-formatted manner";
    "- **Course content questions**: Use the search tool first, then answer";
    "- **No meta-commentary**:";
    " - Provide direct answers only â€” no reasoning process, tool usage explanations, or question-type analysis";
    " - Do not mention " +:+ dq +:+ "based on the search results" +:+ dq +:+ " or " +:+ dq +:+ "using the tool" +:+ dq;
    EmptyString;
    EmptyString;
    "All responses must be:";
    "1. **Brief, Concise and focused** - Get to the point quickly";
    "2. **Educational** - Maintain instructional value";
    "3. **Clear** - Use accessible language";
    "4. **Example-supported** - Include relevant examples when they aid understanding";
    "Provide only the direct answer to what was asked."
  ].

Record AIGenerator := {
  client : Client;
  model : string
}.

(** [self.base_params] extended with [messages] and [system]; the keys
    [tools] and [tool_choice] are not set. *)
Definition base_call (self : AIGenerator) (messages : list Message)
  (system_content : string) : ApiParams :=
  {| p_model := model self;
     p_temperature := 0;
     p_max_tokens := 800;
     p_messages := messages;
     p_system := system_content;
     p_tools := None;
     p_tool_choice := None |}.

(** Truthiness of an optional list ([if tools]): neither [None] nor
    empty. *)
Definition truthy_list {A} (l : option (list A)) : bool :=
  match l with
  | Some (_ :: _) => true
  | _ => false
  end.

(** The conditional expression that builds [system_content]: the history
    block is added when [conversation_history] is truthy, that is neither
    [None] nor the empty string. *)
Definition build_system_content (conversation_history : option string)
  : string :=
  match conversation_history with
  | Some (String _ _ as history) =>
      SYSTEM_PROMPT +:+ nl +:+ nl +:+ "Previous conversation:" +:+ nl
        +:+ history
  | _ => SYSTEM_PROMPT
  end.

(** The parameters of a call inside the loop: tools and the automatic
    tool choice are added when [tools] is truthy. *)
Definition api_params (self : AIGenerator) (messages : list Message)
  (system_content : string) (tools : option (list ToolDefinition))
  : ApiParams :=
  let params := base_call self messages system_content in
  if truthy_list tools
  then {| p_model := p_model params;
          p_temperature := p_temperature params;
          p_max_tokens := p_max_tokens params;
          p_messages := p_messages params;
          p_system := p_system params;
          p_tools := tools;
          p_tool_choice := Some {| tc_type := "auto" |} |}
  else params.

(** [response.content[0].text]: indexing an empty list raises
    [IndexError]; a block without a [text] attribute raises
    [AttributeError]. *)
Definition first_text (response : Response) : outcome string :=
  match content response with
  | [] => Raise IndexError
  | TextBlock text :: _ => Return text
  | ToolUseBlock _ _ _ :: _ => Raise (AttributeError "text")
  end.

Definition return_first_text (response : Response) : M string :=
  fun tr => (first_text response, tr).

(** The [for content_block in response.content] loop of [_execute_tools],
    with its accumulator [tool_results]. *)
Fixpoint execute_tools_loop (tool_manager : ToolManager)
  (blocks : list ContentBlock) (tool_results : list ToolResult)
  : M (list ToolResult) :=
  match blocks with
  | [] => ret tool_results
  | TextBlock _ :: rest => execute_tools_loop tool_manager rest tool_results
  | ToolUseBlock id name input :: rest =>
      do tool_result <- call_execute_tool tool_manager name input;
      execute_tools_loop tool_manager rest
        (tool_results ++ [ {| tr_type := "tool_result";
                              tool_use_id := id;
                              tr_content := tool_result |} ])
  end.

Definition _execute_tools (response : Response) (tool_manager : ToolManager)
  : M (list ToolResult) :=
  execute_tools_loop tool_manager (content response) [].

Definition MAX_TOOL_ROUNDS : nat := 2.

(** The [for round_num in range(MAX_TOOL_ROUNDS)] loop of
    [generate_response] with [rounds] iterations left, followed by the
    final call without tools once the rounds are used up. *)
Fixpoint tool_calling_loop (self : AIGenerator) (system_content : string)
  (tools : option (list ToolDefinition)) (tool_manager : option ToolManager)
  (rounds : nat) (messages : list Message) : M string :=
  match rounds with
  | O =>
      let final_params := base_call self messages system_content in
      do final_response <- messages_create (client self) final_params;
      return_first_text final_response
  | S rounds' =>
      let params := api_params self messages system_content tools in
      do response <- messages_create (client self) params;
      if negb (String.eqb (stop_reason response) "tool_use")
      then return_first_text response
      else
        match tool_manager with
        | None => return_first_text response
        | Some tm =>
            let messages :=
              messages ++ [ {| role := "assistant";
                               msg_content := Blocks (content response) |} ] in
            do tool_results <- _execute_tools response tm;
            let messages :=
              match tool_results with
              | _ :: _ =>
                  messages ++ [ {| role := "user";
                                   msg_content := Results tool_results |} ]
              | [] => messages
              end in
            tool_calling_loop self system_content tools tool_manager
              rounds' messages
        end
  end.

Definition generate_response (self : AIGenerator) (query : string)
  (conversation_history : option string)
  (tools : option (list ToolDefinition))
  (tool_manager : option ToolManager) : M string :=
  let system_content := build_system_content conversation_history in
  let messages := [ {| role := "user"; msg_content := Text query |} ] in
  tool_calling_loop self system_content tools tool_manager
    MAX_TOOL_ROUNDS messages.

(** ** Reading a response and a trace *)

(** The tool-use requests of a response, in the order of its blocks:
    identifier, tool name and arguments. *)
Definition tool_uses (blocks : list ContentBlock)
  : list (string * string * kwargs) :=
  omap (fun b => match b with
                 | ToolUseBlock id name input => Some (id, name, input)
                 | TextBlock _ => None
                 end) blocks.

Definition dispatch_event (u : string * string * kwargs) : Event :=
  ToolCall u.1.2 u.2.

Definition assistant_turn (response : Response) : Message :=
  {| role := "assistant"; msg_content := Blocks (content response) |}.

Definition results_turn (tool_results : list ToolResult) : Message :=
  {| role := "user"; msg_content := Results tool_results |}.

Definition offers_tools (p : ApiParams) : bool :=
  match p_tools p with Some _ => true | None => false end.


(** ** The tool layer ([search_tools.py]) *)

Module search_tools.

(** Modelled from the spec: the citation record a tool leaves behind
    (display text and optional link); [search_tools.py] is not among the
    sources. *)
Record Source := {
  text : string;
  url : option string
}.

(** Modelled from the spec: the metadata of one hit of the retrieval
    collaborator ([vector_store.py] is not among the sources). *)
Record Metadata := {
  course_title : string;
  lesson_number : option Z
}.

(** Modelled from the spec: what the retrieval collaborator returns, a
    ranked list of hits or an error indicator ([SearchResults] of
    [vector_store.py], built in the tests from these four fields). *)
Record SearchResults := {
  documents : list string;
  metadata : list Metadata;
  distances : list Q;
  error : option string
}.

(** Modelled from the spec: the retrieval collaborator as the search
    tool consumes it (section 6 of the specification). *)
Record VectorStore := {
  search : string -> option string -> option Z -> SearchResults;
  get_lesson_link : string -> Z -> option string;
  get_course_link : string -> option string
}.

(** Modelled from the spec: the search tool of [search_tools.py], a
    retrieval collaborator and the sources of its latest search. *)
Record CourseSearchTool := {
  store : VectorStore;
  last_sources : list Source
}.

(** Modelled from the spec: the empty-result message of
    [CourseSearchTool.execute], the base sentence with a clause for each
    filter that is present, course before lesson. *)
Definition empty_message (course_name : option string)
  (lesson_number : option Z) : string :=
  let course_clause :=
    match course_name with
    | Some c => " in course '" +:+ c +:+ "'"
    | None => EmptyString
    end in
  let lesson_clause :=
    match lesson_number with
    | Some n => " in lesson " +:+ pretty n
    | None => EmptyString
    end in
  "No relevant content found" +:+ course_clause +:+ lesson_clause +:+ ".".

(** Modelled from the spec: the label of a hit, [course_title] alone or
    followed by the lesson number. *)
Definition hit_label (m : Metadata) : string :=
  match lesson_number m with
  | None => course_title m
  | Some n => course_title m +:+ " - Lesson " +:+ pretty n
  end.

(** Modelled from the spec: the link of a hit, the lesson link if it
    resolves, else the course link. *)
Definition hit_url (vs : VectorStore) (m : Metadata) : option string :=
  match lesson_number m with
  | Some n =>
      match get_lesson_link vs (course_title m) n with
      | Some link => Some link
      | None => get_course_link vs (course_title m)
      end
  | None => get_course_link vs (course_title m)
  end.

Fixpoint join_blocks (blocks : list string) : string :=
  match blocks with
  | [] => EmptyString
  | [b] => b
  | b :: rest => b +:+ nl +:+ nl +:+ join_blocks rest
  end.

(** Modelled from the spec: the formatting of the hits of
    [CourseSearchTool], one labelled block per hit in result order, and
    one source per hit. *)
Definition _format_results (vs : VectorStore) (results : SearchResults)
  : string * list Source :=
  let hits := zip (documents results) (metadata results) in
  (join_blocks
     (map (fun h => "[" +:+ hit_label h.2 +:+ "]" +:+ nl +:+ h.1) hits),
   map (fun h => {| text := hit_label h.2; url := hit_url vs h.2 |}) hits).

(** Modelled from the spec: [CourseSearchTool.execute]; it yields the
    result text and the tool with its sources after the call. *)
Definition execute (self : CourseSearchTool) (query : string)
  (course_name : option string) (lesson_number : option Z)
  : string * CourseSearchTool :=
  let results := search (store self) query course_name lesson_number in
  match error results with
  | Some message => (message, self)
  | None =>
      match documents results with
      | [] => (empty_message course_name lesson_number, self)
      | _ :: _ =>
          let (formatted, sources) := _format_results (store self) results in
          (formatted, {| store := store self; last_sources := sources |})
      end
  end.

(** Modelled from the spec: a registered tool, its schema and what
    running it on an argument mapping yields. *)
Record Tool := {
  get_tool_definition : ToolDefinition;
  run : kwargs -> outcome string
}.

(** Modelled from the spec: the tool registry of [search_tools.py], a
    mapping from tool names to tools. *)
Record ToolManager := {
  tools : gmap string Tool
}.

(** Modelled from the spec: [ToolManager.register_tool] stores the tool
    under the name of its definition. *)
Definition register_tool (self : ToolManager) (tool : Tool) : ToolManager :=
  {| tools := <[td_name (get_tool_definition tool) := tool]> (tools self) |}.

(** Modelled from the spec: [ToolManager.execute_tool], the dispatch by
    name handed to the generation loop. *)
Definition execute_tool (self : ToolManager) (tool_name : string)
  (args : kwargs) : outcome string :=
  match tools self !! tool_name with
  | None => Return ("Tool '" +:+ tool_name +:+ "' not found")
  | Some tool => run tool args
  end.

End search_tools.

(** ** Sample collaborators (after the fixtures of the test suite) *)

Definition mock_anthropic_response_simple : Response :=
  {| stop_reason := "end_turn";
     content := [TextBlock "This is a simple response from Claude."] |}.

Definition mock_anthropic_response_with_tool : Response :=
  {| stop_reason := "tool_use";
     content := [ToolUseBlock "tool_123" "search_course_content"
                   {[ "query" := JStr "testing basics" ]}] |}.

Definition mock_anthropic_final_response : Response :=
  {| stop_reason := "end_turn";
     content := [TextBlock "Final answer synthesizing tool results"] |}.

(** A response that stops for tool use although it holds no tool-use
    block. *)
Definition response_without_tool_blocks : Response :=
  {| stop_reason := "tool_use";
     content := [TextBlock "Let me look that up."] |}.

(** A client that gives the same answer to every call
    ([create.return_value]). *)
Definition constant_client (o : outcome Response) : Client :=
  fun _ _ => o.

(** A client that plays a list of outcomes, one per call
    ([create.side_effect]). *)
Definition scripted_client (script : list (outcome Response)) : Client :=
  fun tr _ =>
    match script !! length (model_calls tr) with
    | Some o => o
    | None => Raise (APIError "StopIteration")
    end.

Definition mock_tool_manager : ToolManager :=
  {| execute_tool := fun _ _ _ =>
       Return "Search results returned successfully" |}.

Definition sample_tools : list ToolDefinition :=
  [ {| td_name := "search_course_content";
       td_description := "Search tool";
       td_input_schema :=
         [ {| prop_name := "query"; prop_type := "string";
              prop_description := "What to search for";
              prop_required := true |} ] |} ].

Definition sample_generator (c : Client) : AIGenerator :=
  {| client := c; model := "claude-sonnet-4-20250514" |}.

Definition user_turn (query : string) : Message :=
  {| role := "user"; msg_content := Text query |}.

Definition empty_store : search_tools.VectorStore :=
  {| search_tools.search := fun _ _ _ =>
       {| search_tools.documents := [];
          search_tools.metadata := [];
          search_tools.distances := [];
          search_tools.error := None |};
     search_tools.get_lesson_link := fun _ _ => None;
     search_tools.get_course_link := fun _ => None |}.

Definition failing_store : search_tools.VectorStore :=
  {| search_tools.search := fun _ _ _ =>
       {| search_tools.documents := [];
          search_tools.metadata := [];
          search_tools.distances := [];
          search_tools.error := Some "Course not found" |};
     search_tools.get_lesson_link := fun _ _ => None;
     search_tools.get_course_link := fun _ => None |}.

(** ** Reading the messages of a call *)

(** What one round adds to the messages: the assistant turn, and the
    results turn unless the batch is empty. *)
Definition round_turns (response : Response) (tool_results : list ToolResult)
  : list Message :=
  assistant_turn response
    :: match tool_results with
       | [] => []
       | _ :: _ => [results_turn tool_results]
       end.

(** The roles alternate, starting with the user when [user_next]. *)
Fixpoint roles_alternate (user_next : bool) (messages : list Message) : bool :=
  match messages with
  | [] => true
  | m :: rest =>
      String.eqb (role m) (if user_next then "user" else "assistant")
      && roles_alternate (negb user_next) rest
  end.

(** Each call sees the messages of the call before it, extended. *)
Definition messages_extend (p1 p2 : ApiParams) : Prop :=
  p_messages p1 `prefix_of` p_messages p2.

Definition auto_choice : ToolChoice := {| tc_type := "auto" |}.

Definition first_call (self : AIGenerator) (query : string)
  (conversation_history : option string)
  (tools : option (list ToolDefinition)) : ApiParams :=
  api_params self [user_turn query]
    (build_system_content conversation_history) tools.

(** ** The dispatches of a round *)

(** Every dispatch of the tool manager returns a text (the contract the
    registry promises for its dispatch). *)
Definition dispatch_returns (tm : ToolManager) : Prop :=
  forall tr name input, exists text,
    execute_tool tm tr name input = Return text.

(** Every dispatch of the batch [uses], run in order from the trace [tr],
    returns a text. *)
Definition batch_returns (tm : ToolManager) (tr : Trace)
  (uses : list (string * string * kwargs)) : Prop :=
  forall (i : nat) id name input,
    uses !! i = Some (id, name, input) ->
    exists text,
      execute_tool tm (tr ++ map dispatch_event (take i uses)) name input
      = Return text.

(** [results] holds, position by position, the entry for the request at
    that position of [uses]: its identifier and the text its dispatch
    returned when the batch was run in order from the trace [tr]. *)
Definition paired_results (tm : ToolManager) (tr : Trace)
  (uses : list (string * string * kwargs)) (results : list ToolResult)
  : Prop :=
  length results = length uses
  /\ forall (i : nat) id name input,
       uses !! i = Some (id, name, input) ->
       exists text,
         execute_tool tm (tr ++ map dispatch_event (take i uses)) name input
         = Return text
         /\ results !! i
            = Some {| tr_type := "tool_result";
                      tool_use_id := id;
                      tr_content := text |}.

(** The parameters of the model call that opens the loop when [rounds]
    rounds are left: a call of the loop, or the final call without
    tools. *)
Definition next_call (self : AIGenerator) (sys : string)
  (tools : option (list ToolDefinition)) (rounds : nat)
  (messages : list Message) : ApiParams :=
  match rounds with
  | O => base_call self messages sys
  | S _ => api_params self messages sys tools
  end.

(** A response that opens with a text block and then asks for a tool. *)
Definition response_text_then_tool : Response :=
  {| stop_reason := "tool_use";
     content := [TextBlock "Let me search the course materials.";
                 ToolUseBlock "tool_123" "search_course_content"
                   {[ "query" := JStr "testing basics" ]}] |}.

(** A tool manager whose dispatch raises. *)
Definition failing_tool_manager : ToolManager :=
  {| execute_tool := fun _ _ _ => Raise (RuntimeError "index unavailable") |}.
(** ** The tool batch of one round *)

Lemma tool_uses_none (blocks : list ContentBlock) :
  Forall (fun b => block_type b <> "tool_use") blocks ->
  tool_uses blocks = [].
Proof.
  induction 1 as [|b rest Hb _ IH]; [reflexivity|].
  destruct b as [t|id name input]; simpl in *; [exact IH|].
  now contradiction Hb.
Qed.

Lemma tool_uses_some (blocks : list ContentBlock) :
  Exists (fun b => block_type b = "tool_use") blocks ->
  tool_uses blocks <> [].
Proof.
  induction 1 as [b rest Hb|b rest _ IH].
  - destruct b; simpl in *; [discriminate Hb|discriminate].
  - destruct b; simpl; [exact IH|discriminate].
Qed.

(** Running the batch dispatches the requests in order.  Either every
    dispatch returns, and the accumulator is extended with one entry per
    request; or a dispatch raises, and the batch stops there with its
    exception. *)
Lemma execute_tools_loop_cases (tm : ToolManager) (blocks : list ContentBlock) :
  forall (acc : list ToolResult) (tr : Trace),
  (exists results : list ToolResult,
      execute_tools_loop tm blocks acc tr
      = (Return (acc ++ results), tr ++ map dispatch_event (tool_uses blocks))
      /\ paired_results tm tr (tool_uses blocks) results)
  \/ (exists e j id name input,
        execute_tools_loop tm blocks acc tr
        = (Raise e, tr ++ map dispatch_event (take (S j) (tool_uses blocks)))
        /\ tool_uses blocks !! j = Some (id, name, input)
        /\ execute_tool tm
             (tr ++ map dispatch_event (take j (tool_uses blocks))) name input
           = Raise e).
Proof.
  induction blocks as [|b rest IH]; intros acc tr.
  - left. exists []. cbn. rewrite !app_nil_r. split; [reflexivity|].
    split; [reflexivity|]. intros i id name input H. discriminate H.
  - destruct b as [t|id0 name0 input0]; [exact (IH acc tr)|].
    cbn [execute_tools_loop]. unfold bind, call_execute_tool.
    destruct (execute_tool tm tr name0 input0) as [text|e] eqn:Hx;
      cbv beta iota.
    + destruct (IH (acc ++ [ {| tr_type := "tool_result";
                                tool_use_id := id0;
                                tr_content := text |} ])
                   (tr ++ [ToolCall name0 input0]))
        as [(results & Hrun & Hlen & Hpt)|(e & j & id & name & input & Hrun & Hj & He)].
      * left.
        exists ({| tr_type := "tool_result"; tool_use_id := id0;
                   tr_content := text |} :: results).
        split; [|split].
        -- etransitivity; [exact Hrun|]. now rewrite <- !app_assoc.
        -- cbn [tool_uses omap length] in *. now rewrite Hlen.
        -- intros [|i] id name input Hi.
           ++ injection Hi as <- <- <-. exists text.
              cbn [take map]. rewrite app_nil_r. split; [exact Hx|reflexivity].
           ++ destruct (Hpt i id name input Hi) as (text' & Hx' & Hres).
              exists text'. split; [|exact Hres].
              rewrite <- Hx'. f_equal. now rewrite <- app_assoc.
      * right. exists e, (S j), id, name, input. split; [|split].
        -- etransitivity; [exact Hrun|]. now rewrite <- app_assoc.
        -- exact Hj.
        -- rewrite <- He. f_equal. now rewrite <- app_assoc.
    + right. exists e, 0%nat, id0, name0, input0. split; [|split].
      * destruct (tool_uses rest); reflexivity.
      * reflexivity.
      * cbn [take map]. now rewrite app_nil_r.
Qed.

(** When every dispatch of the batch returns, so does the batch. *)
Lemma execute_tools_loop_returns (tm : ToolManager) (blocks : list ContentBlock)
  (acc : list ToolResult) (tr : Trace) :
  batch_returns tm tr (tool_uses blocks) ->
  exists results : list ToolResult,
    execute_tools_loop tm blocks acc tr
    = (Return (acc ++ results), tr ++ map dispatch_event (tool_uses blocks))
    /\ paired_results tm tr (tool_uses blocks) results.
Proof.
  intros Hret.
  destruct (execute_tools_loop_cases tm blocks acc tr)
    as [Hok|(e & j & id & name & input & _ & Hj & He)]; [exact Hok|].
  destruct (Hret j id name input Hj) as [text Htext].
  rewrite Htext in He. discriminate He.
Qed.

Lemma dispatch_returns_batch (tm : ToolManager) (tr : Trace)
  (uses : list (string * string * kwargs)) :
  dispatch_returns tm -> batch_returns tm tr uses.
Proof. intros Hret i id name input _. apply Hret. Qed.

(** ** One round of the loop *)

Lemma eqb_tool_use (response : Response) :
  stop_reason response = "tool_use" ->
  negb (String.eqb (stop_reason response) "tool_use") = false.
Proof. intros ->. reflexivity. Qed.

Lemma eqb_not_tool_use (response : Response) :
  stop_reason response <> "tool_use" ->
  negb (String.eqb (stop_reason response) "tool_use") = true.
Proof.
  intros H. destruct (String.eqb_spec (stop_reason response) "tool_use");
    [contradiction|reflexivity].
Qed.

(** A round that ends the loop: the response does not ask for tools, or
    there is no tool manager to run them. *)
Lemma round_exit (self : AIGenerator) (sys : string)
  (tools : option (list ToolDefinition)) (tmo : option ToolManager)
  (n : nat) (messages : list Message) (tr : Trace) (r : Response) :
  client self tr (api_params self messages sys tools) = Return r ->
  stop_reason r <> "tool_use" \/ tmo = None ->
  tool_calling_loop self sys tools tmo (S n) messages tr
  = (first_text r, tr ++ [ModelCall (api_params self messages sys tools)]).
Proof.
  intros Hcall Hexit.
  cbn [tool_calling_loop]. unfold bind at 1, messages_create.
  rewrite Hcall.
  destruct (negb (String.eqb (stop_reason r) "tool_use")) eqn:Hneg;
    [reflexivity|].
  destruct Hexit as [Hstop| ->]; [|reflexivity].
  now rewrite (eqb_not_tool_use r Hstop) in Hneg.
Qed.

(** A model call that raises ends the loop with that exception. *)
Lemma round_raise (self : AIGenerator) (sys : string)
  (tools : option (list ToolDefinition)) (tmo : option ToolManager)
  (n : nat) (messages : list Message) (tr : Trace) (e : exn) :
  client self tr (api_params self messages sys tools) = Raise e ->
  tool_calling_loop self sys tools tmo (S n) messages tr
  = (Raise e, tr ++ [ModelCall (api_params self messages sys tools)]).
Proof.
  intros Hcall. cbn [tool_calling_loop]. unfold bind at 1, messages_create.
  now rewrite Hcall.
Qed.

Lemma final_call (self : AIGenerator) (sys : string)
  (tools : option (list ToolDefinition)) (tmo : option ToolManager)
  (messages : list Message) (tr : Trace) :
  tool_calling_loop self sys tools tmo 0 messages tr
  = (match client self tr (base_call self messages sys) with
     | Return r => first_text r
     | Raise e => Raise e
     end, tr ++ [ModelCall (base_call self messages sys)]).
Proof.
  cbn [tool_calling_loop]. unfold bind, messages_create, return_first_text.
  now destruct (client self tr (base_call self messages sys)).
Qed.

(** A round whose response asks for tools, with a tool manager at hand,
    runs the tool batch right after the model call. *)
Lemma tool_round_unfold (self : AIGenerator) (sys : string)
  (tools : option (list ToolDefinition)) (tm : ToolManager)
  (n : nat) (messages : list Message) (tr : Trace) (r : Response) :
  client self tr (api_params self messages sys tools) = Return r ->
  stop_reason r = "tool_use" ->
  tool_calling_loop self sys tools (Some tm) (S n) messages tr
  = match execute_tools_loop tm (content r) []
            (tr ++ [ModelCall (api_params self messages sys tools)]) with
    | (Return results, tr') =>
        tool_calling_loop self sys tools (Some tm) n
          (messages ++ round_turns r results) tr'
    | (Raise e, tr') => (Raise e, tr')
    end.
Proof.
  intros Hcall Hstop.
  cbn [tool_calling_loop]. unfold bind at 1, messages_create.
  rewrite Hcall, (eqb_tool_use r Hstop).
  unfold bind at 1, _execute_tools.
  destruct (execute_tools_loop tm (content r) [] _) as [[results|e] tr'];
    [|reflexivity].
  unfold round_turns, assistant_turn, results_turn.
  destruct results; [reflexivity|].
  now rewrite <- (app_assoc messages).
Qed.

(** The three ways a round can go: it ends the run right after its
    model call; it runs the whole tool batch and hands over to the next
    round; or a dispatch of the batch raises and ends the run. *)
Lemma loop_step_cases (self : AIGenerator) (sys : string)
  (tools : option (list ToolDefinition)) (tmo : option ToolManager)
  (n : nat) (messages : list Message) (tr : Trace) :
  tool_calling_loop self sys tools tmo (S n) messages tr
  = (match client self tr (api_params self messages sys tools) with
     | Return r => first_text r
     | Raise e => Raise e
     end, tr ++ [ModelCall (api_params self messages sys tools)])
  \/ (exists (tm : ToolManager) (r : Response) (results : list ToolResult),
        tmo = Some tm
        /\ client self tr (api_params self messages sys tools) = Return r
        /\ stop_reason r = "tool_use"
        /\ paired_results tm
             (tr ++ [ModelCall (api_params self messages sys tools)])
             (tool_uses (content r)) results
        /\ tool_calling_loop self sys tools tmo (S n) messages tr
           = tool_calling_loop self sys tools tmo n
               (messages ++ round_turns r results)
               (tr ++ ModelCall (api_params self messages sys tools)
                   :: map dispatch_event (tool_uses (content r))))
  \/ (exists (tm : ToolManager) (r : Response) e j id name input,
        tmo = Some tm
        /\ client self tr (api_params self messages sys tools) = Return r
        /\ stop_reason r = "tool_use"
        /\ tool_uses (content r) !! j = Some (id, name, input)
        /\ execute_tool tm
             (tr ++ ModelCall (api_params self messages sys tools)
                 :: map dispatch_event (take j (tool_uses (content r))))
             name input = Raise e
        /\ tool_calling_loop self sys tools tmo (S n) messages tr
           = (Raise e,
              tr ++ ModelCall (api_params self messages sys tools)
                 :: map dispatch_event
                      (take (S j) (tool_uses (content r))))).
Proof.
  destruct (client self tr (api_params self messages sys tools))
    as [r|e] eqn:Hc.
  - destruct (String.eqb_spec (stop_reason r) "tool_use") as [Hstop|Hstop].
    + destruct tmo as [tm|].
      * right. rewrite (tool_round_unfold self sys tools tm n messages tr r Hc Hstop).
        destruct (execute_tools_loop_cases tm (content r) []
                    (tr ++ [ModelCall (api_params self messages sys tools)]))
          as [(results & Hrun & Hpair)
             |(e & j & id & name & input & Hrun & Hj & He)].
        -- left. exists tm, r, results. rewrite Hrun.
           rewrite <- (app_assoc tr). repeat split; try assumption;
             apply Hpair.
        -- right. exists tm, r, e, j, id, name, input. rewrite Hrun.
           rewrite <- !(app_assoc tr) in *. repeat split; assumption.
      * left. exact (round_exit _ _ _ _ _ _ _ _ Hc (or_intror eq_refl)).
    + left. exact (round_exit _ _ _ _ _ _ _ _ Hc (or_introl Hstop)).
  - left. exact (round_raise _ _ _ _ _ _ _ _ Hc).
Qed.

(** With every dispatch of the batch returning, the round hands over to
    the next one. *)
Lemma tool_round_step (self : AIGenerator) (sys : string)
  (tools : option (list ToolDefinition)) (tm : ToolManager)
  (n : nat) (messages : list Message) (tr : Trace) (r : Response) :
  client self tr (api_params self messages sys tools) = Return r ->
  stop_reason r = "tool_use" ->
  batch_returns tm (tr ++ [ModelCall (api_params self messages sys tools)])
    (tool_uses (content r)) ->
  exists results : list ToolResult,
    paired_results tm
      (tr ++ [ModelCall (api_params self messages sys tools)])
      (tool_uses (content r)) results
    /\ tool_calling_loop self sys tools (Some tm) (S n) messages tr
       = tool_calling_loop self sys tools (Some tm) n
           (messages ++ round_turns r results)
           (tr ++ ModelCall (api_params self messages sys tools)
               :: map dispatch_event (tool_uses (content r))).
Proof.
  intros Hc Hstop Hret.
  destruct (execute_tools_loop_returns tm (content r) [] _ Hret)
    as (results & Hrun & Hpair).
  exists results. split; [exact Hpair|].
  rewrite (tool_round_unfold self sys tools tm n messages tr r Hc Hstop), Hrun.
  now rewrite <- (app_assoc tr).
Qed.

(** ** Traces *)

Lemma model_calls_app (tr1 tr2 : Trace) :
  model_calls (tr1 ++ tr2) = model_calls tr1 ++ model_calls tr2.
Proof. apply omap_app. Qed.

Lemma model_calls_dispatches (us : list (string * string * kwargs)) :
  model_calls (map dispatch_event us) = [].
Proof. induction us as [|u us IH]; [reflexivity|exact IH]. Qed.

Lemma single_call_split (pre post : Trace) (p p0 : ApiParams) :
  pre ++ ModelCall p :: post = [ModelCall p0] ->
  pre = [] /\ post = [] /\ p = p0.
Proof.
  destruct pre as [|ev pre]; simpl; intros H.
  - injection H as -> ->. auto.
  - injection H as _ H. now destruct pre.
Qed.

Lemma split_after_dispatches (us : list (string * string * kwargs)) :
  forall (pre post ext : Trace) (p : ApiParams),
  pre ++ ModelCall p :: post = map dispatch_event us ++ ext ->
  exists pre', pre = map dispatch_event us ++ pre'
               /\ ext = pre' ++ ModelCall p :: post.
Proof.
  induction us as [|u us IH]; intros pre post ext p H.
  - exists pre. auto.
  - destruct pre as [|ev pre]; simpl in H.
    + discriminate H.
    + injection H as -> H.
      destruct (IH _ _ _ _ H) as (pre' & -> & ->).
      exists pre'. auto.
Qed.

Lemma model_calls_round (p : ApiParams)
  (us : list (string * string * kwargs)) (ext : Trace) :
  model_calls (ModelCall p :: map dispatch_event us ++ ext)
  = p :: model_calls ext.
Proof.
  change (ModelCall p :: ?l) with ([ModelCall p] ++ l).
  now rewrite !model_calls_app, model_calls_dispatches.
Qed.

Lemma model_calls_round_cut (p : ApiParams)
  (us : list (string * string * kwargs)) :
  model_calls (ModelCall p :: map dispatch_event us) = [p].
Proof.
  rewrite <- (app_nil_r (map dispatch_event us)).
  apply model_calls_round.
Qed.

(** ** Failures of the model client *)

(** The loop only appends to the trace, and a model call that raised is
    the last thing that happened: its exception is the outcome. *)
Lemma loop_failure_is_last (self : AIGenerator) (sys : string)
  (tools : option (list ToolDefinition)) (tmo : option ToolManager)
  (n : nat) :
  forall (messages : list Message) (tr : Trace),
  exists ext : Trace,
    snd (tool_calling_loop self sys tools tmo n messages tr) = tr ++ ext
    /\ forall pre p post e,
         ext = pre ++ ModelCall p :: post ->
         client self (tr ++ pre) p = Raise e ->
         post = []
         /\ fst (tool_calling_loop self sys tools tmo n messages tr) = Raise e.
Proof.
  assert (Hsingle : forall (tr : Trace) (p0 : ApiParams) (res : outcome string),
    (forall e, client self tr p0 = Raise e -> res = Raise e) ->
    exists ext : Trace,
      snd (res, tr ++ [ModelCall p0]) = tr ++ ext
      /\ forall pre p post e,
           ext = pre ++ ModelCall p :: post ->
           client self (tr ++ pre) p = Raise e ->
           post = [] /\ fst (res, tr ++ [ModelCall p0]) = Raise e).
  { intros tr p0 res Hres. exists [ModelCall p0]. split; [reflexivity|].
    intros pre p post e Hs Hr. symmetry in Hs.
    apply single_call_split in Hs as (-> & -> & ->).
    rewrite app_nil_r in Hr. split; [reflexivity|]. exact (Hres e Hr). }
  induction n as [|n IH]; intros messages tr.
  - rewrite final_call. apply Hsingle. now intros e ->.
  - destruct (loop_step_cases self sys tools tmo n messages tr)
      as [Hexit|[(tm & r & results & _ & Hc & _ & _ & Hstep)
                |(tm & r & e0 & j & id & name & input & _ & Hc & _ & _ & _ & Hcut)]].
    + rewrite Hexit. apply Hsingle. now intros e ->.
    + rewrite Hstep.
      match goal with
      | |- context [tool_calling_loop _ _ _ _ n ?m ?t] =>
          destruct (IH m t) as (ext' & Hsnd & Hlast)
      end.
      exists (ModelCall (api_params self messages sys tools)
                :: map dispatch_event (tool_uses (content r)) ++ ext').
      split.
      { rewrite Hsnd, <- app_assoc. reflexivity. }
      intros pre p post e Hs Hr.
      destruct pre as [|ev pre]; simpl in Hs.
      { injection Hs as <- _. rewrite app_nil_r in Hr. congruence. }
      injection Hs as <- Hs. symmetry in Hs.
      apply split_after_dispatches in Hs as (pre' & -> & ->).
      apply (Hlast pre' p post e eq_refl).
      rewrite <- Hr. f_equal. rewrite <- app_assoc. reflexivity.
    + rewrite Hcut. eexists. split; [reflexivity|].
      intros pre p post e Hs Hr.
      destruct pre as [|ev pre]; simpl in Hs.
      { injection Hs as <- _. rewrite app_nil_r in Hr. congruence. }
      injection Hs as <- Hs. symmetry in Hs.
      rewrite <- (app_nil_r (map dispatch_event _)) in Hs.
      apply split_after_dispatches in Hs as (pre' & _ & Hnil).
      now destruct pre'.
Qed.

(** ** The system instruction *)

Lemma api_params_system (self : AIGenerator) (messages : list Message)
  (sys : string) (tools : option (list ToolDefinition)) :
  p_system (api_params self messages sys tools) = sys.
Proof. unfold api_params. now destruct (truthy_list tools). Qed.

Lemma loop_system_invariant (self : AIGenerator) (sys : string)
  (tools : option (list ToolDefinition)) (tmo : option ToolManager)
  (n : nat) :
  forall (messages : list Message) (tr : Trace),
    Forall (fun p => p_system p = sys) (model_calls tr) ->
    Forall (fun p => p_system p = sys)
      (model_calls (snd (tool_calling_loop self sys tools tmo n messages tr))).
Proof.
  assert (Hone : forall (tr : Trace) (p0 : ApiParams) (res : outcome string),
    p_system p0 = sys ->
    Forall (fun p => p_system p = sys) (model_calls tr) ->
    Forall (fun p => p_system p = sys)
      (model_calls (snd (res, tr ++ [ModelCall p0])))).
  { intros tr p0 res Hp Htr. simpl. rewrite model_calls_app.
    apply Forall_app. split; [exact Htr|]. now constructor. }
  induction n as [|n IH]; intros messages tr Htr.
  - rewrite final_call. now apply Hone.
  - pose proof (api_params_system self messages sys tools) as Hsys.
    destruct (loop_step_cases self sys tools tmo n messages tr)
      as [Hexit|[(tm & r & results & _ & _ & _ & _ & Hstep)
                |(tm & r & e & j & id & name & input & _ & _ & _ & _ & _ & Hcut)]].
    + rewrite Hexit. now apply Hone.
    + rewrite Hstep. apply IH.
      rewrite model_calls_app, model_calls_round_cut.
      apply Forall_app. split; [exact Htr|]. now constructor.
    + rewrite Hcut. cbn [snd].
      rewrite model_calls_app, model_calls_round_cut.
      apply Forall_app. split; [exact Htr|]. now constructor.
Qed.

(** ** Rounds that all ask for tools *)

Lemma api_params_tools (self : AIGenerator) (messages : list Message)
  (sys : string) (tools : option (list ToolDefinition)) :
  p_tools (api_params self messages sys tools)
  = (if truthy_list tools then tools else None).
Proof. unfold api_params. now destruct (truthy_list tools). Qed.

Lemma exhausted_rounds (self : AIGenerator) (sys : string)
  (tools : option (list ToolDefinition)) (tm : ToolManager) (n : nat) :
  (forall tr p, exists r,
      client self tr p = Return r /\ stop_reason r = "tool_use") ->
  dispatch_returns tm ->
  forall (messages : list Message) (tr : Trace),
  exists (rounds : Trace) (final_params : ApiParams) (final_response : Response),
    tool_calling_loop self sys tools (Some tm) n messages tr
    = (first_text final_response, tr ++ rounds ++ [ModelCall final_params])
    /\ client self (tr ++ rounds) final_params = Return final_response
    /\ p_tools final_params = None
    /\ p_tool_choice final_params = None
    /\ length (model_calls rounds) = n
    /\ Forall (fun p => p_tools p = if truthy_list tools then tools else None)
         (model_calls rounds).
Proof.
  intros Hall Hret. induction n as [|n IH]; intros messages tr.
  - destruct (Hall tr (base_call self messages sys)) as (rf & Hrf & _).
    exists [], (base_call self messages sys), rf.
    rewrite final_call, app_nil_r, Hrf. repeat split; constructor.
  - destruct (Hall tr (api_params self messages sys tools)) as (r & Hr & Hstop).
    destruct (tool_round_step self sys tools tm n messages tr r Hr Hstop
                (dispatch_returns_batch tm _ _ Hret))
      as (results & _ & Hstep).
    rewrite Hstep.
    match goal with
    | |- context [tool_calling_loop _ _ _ _ n ?m ?t] =>
        destruct (IH m t) as (rounds & pf & rf & Hrun & Hrf & Ht & Hc & Hlen & Hall')
    end.
    exists (ModelCall (api_params self messages sys tools)
              :: map dispatch_event (tool_uses (content r)) ++ rounds), pf, rf.
    rewrite model_calls_round.
    split; [|split; [|split; [|split; [|split]]]].
    + rewrite Hrun. f_equal.
      cbn [app]. now rewrite <- ?app_assoc.
    + rewrite <- Hrf. f_equal.
      cbn [app]. now rewrite <- ?app_assoc.
    + exact Ht.
    + exact Hc.
    + simpl. now rewrite Hlen.
    + constructor; [apply api_params_tools|exact Hall'].
Qed.

(** ** Scenarios of the test suite *)

(** [test_max_rounds_enforcement]: two rounds of tool use, then the final
    call; three model calls, two dispatches. *)
Example max_rounds_scenario :
  let self := sample_generator
                (scripted_client
                   [Return mock_anthropic_response_with_tool;
                    Return mock_anthropic_response_with_tool;
                    Return mock_anthropic_final_response]) in
  let run := generate_response self "Complex query" None (Some sample_tools)
               (Some mock_tool_manager) [] in
  fst run = Return "Final answer synthesizing tool results"
  /\ length (model_calls (snd run)) = 3
  /\ length (tool_calls (snd run)) = 2
  /\ map offers_tools (model_calls (snd run)) = [true; true; false].
Proof. repeat split. Qed.

(** [test_early_termination_round_two]: one round of tool use, then a
    direct answer. *)
Example early_termination_round_two_scenario :
  let self := sample_generator
                (scripted_client
                   [Return mock_anthropic_response_with_tool;
                    Return mock_anthropic_final_response]) in
  let run := generate_response self "Simple question" None (Some sample_tools)
               (Some mock_tool_manager) [] in
  fst run = Return "Final answer synthesizing tool results"
  /\ length (model_calls (snd run)) = 2
  /\ length (tool_calls (snd run)) = 1.
Proof. repeat split. Qed.

(** [test_message_history_accumulation]: the messages of the final call
    alternate user, assistant, user, assistant, user. *)
Example message_history_scenario :
  let self := sample_generator
                (scripted_client
                   [Return mock_anthropic_response_with_tool;
                    Return mock_anthropic_response_with_tool;
                    Return mock_anthropic_final_response]) in
  let run := generate_response self "Test query" None (Some sample_tools)
               (Some mock_tool_manager) [] in
  (map role <$> (p_messages <$> last (model_calls (snd run))))
  = Some ["user"; "assistant"; "user"; "assistant"; "user"].
Proof. reflexivity. Qed.

(** ** The call that opens the loop *)

(** Whatever follows, the loop starts with a model call: a call of the
    loop while rounds are left, the final call otherwise. *)
Lemma loop_first_call (self : AIGenerator) (sys : string)
  (tools : option (list ToolDefinition)) (tmo : option ToolManager)
  (n : nat) (messages : list Message) (tr : Trace) :
  exists rest : Trace,
    snd (tool_calling_loop self sys tools tmo n messages tr)
    = tr ++ ModelCall (next_call self sys tools n messages) :: rest.
Proof.
  destruct n as [|n].
  - rewrite final_call. now exists [].
  - destruct (loop_step_cases self sys tools tmo n messages tr)
      as [Hexit|[(tm & r & results & _ & _ & _ & _ & Hstep)
                |(tm & r & e & j & id & name & input & _ & _ & _ & _ & _ & Hcut)]].
    + rewrite Hexit. now exists [].
    + rewrite Hstep.
      match goal with
      | |- context [tool_calling_loop _ _ _ _ n ?m ?t] =>
          destruct (loop_failure_is_last self sys tools tmo n m t)
            as (ext & Hsnd & _)
      end.
      rewrite Hsnd, <- app_assoc. cbn [app next_call]. eauto.
    + rewrite Hcut. cbn [snd next_call]. eauto.
Qed.

(** ** Properties of [generate_response] *)

(** C2 (early exit).  When the first model response does not stop for
    tool use, [generate_response] makes exactly one model call, runs no
    tool, and its outcome is the text of the first content block of that
    response, unchanged. *)
Theorem early_exit_single_call (self : AIGenerator) (query : string)
  (conversation_history : option string)
  (tools : option (list ToolDefinition)) (tmo : option ToolManager)
  (tr : Trace) (r : Response) :
  client self tr
    (api_params self [user_turn query]
       (build_system_content conversation_history) tools) = Return r ->
  stop_reason r <> "tool_use" ->
  generate_response self query conversation_history tools tmo tr
  = (first_text r,
     tr ++ [ModelCall (api_params self [user_turn query]
                         (build_system_content conversation_history) tools)])
  /\ forall text rest,
       content r = TextBlock text :: rest ->
       fst (generate_response self query conversation_history tools tmo tr)
       = Return text.
Proof.
  intros Hcall Hstop.
  assert (Hrun :
    generate_response self query conversation_history tools tmo tr
    = (first_text r,
       tr ++ [ModelCall (api_params self [user_turn query]
                           (build_system_content conversation_history) tools)])).
  { unfold generate_response, MAX_TOOL_ROUNDS.
    exact (round_exit _ _ _ _ _ _ _ _ Hcall (or_introl Hstop)). }
  split; [exact Hrun|].
  intros text rest Hcontent. rewrite Hrun. unfold first_text.
  now rewrite Hcontent.
Qed.

Lemma early_exit_single_call_witness :
  let self := sample_generator
                (constant_client (Return mock_anthropic_response_simple)) in
  stop_reason mock_anthropic_response_simple <> "tool_use"
  /\ generate_response self "What is 2+2?" None (Some sample_tools) None []
     = (Return "This is a simple response from Claude.",
        [ModelCall (api_params self [user_turn "What is 2+2?"]
                      SYSTEM_PROMPT (Some sample_tools))]).
Proof.
  intros self.
  assert (Hstop : stop_reason mock_anthropic_response_simple <> "tool_use")
    by discriminate.
  split; [exact Hstop|].
  exact (proj1 (early_exit_single_call self "What is 2+2?" None
                  (Some sample_tools) None []
                  mock_anthropic_response_simple eq_refl Hstop)).
Defined.

(** C4 (no tool manager).  With tools offered, no tool manager and a
    response that stops for tool use and opens with its tool-use block,
    [generate_response] makes one model call and then raises
    [AttributeError] instead of returning: the block has no [text]. *)
Theorem no_tool_manager_tool_block_raises :
  let self := sample_generator
                (constant_client (Return mock_anthropic_response_with_tool)) in
  generate_response self "Test query" None (Some sample_tools) None []
  = (Raise (AttributeError "text"),
     [ModelCall (api_params self [user_turn "Test query"]
                   SYSTEM_PROMPT (Some sample_tools))]).
Proof.
  intros self. unfold generate_response, MAX_TOOL_ROUNDS.
  exact (round_exit self _ _ None _ _ []
           mock_anthropic_response_with_tool eq_refl (or_intror eq_refl)).
Qed.

(** C9 (empty history).  An empty [conversation_history] is treated like
    an absent one: the system instruction is [SYSTEM_PROMPT] itself, the
    run is the run without history, and every model call of the run
    carries [SYSTEM_PROMPT] as its system instruction. *)
Theorem empty_history_plain_prompt (self : AIGenerator) (query : string)
  (tools : option (list ToolDefinition)) (tmo : option ToolManager) :
  build_system_content (Some EmptyString) = SYSTEM_PROMPT
  /\ build_system_content None = SYSTEM_PROMPT
  /\ generate_response self query (Some EmptyString) tools tmo []
     = generate_response self query None tools tmo []
  /\ Forall (fun p => p_system p = SYSTEM_PROMPT)
       (model_calls
          (snd (generate_response self query (Some EmptyString) tools tmo []))).
Proof.
  repeat split.
  unfold generate_response.
  change (build_system_content (Some EmptyString)) with SYSTEM_PROMPT.
  apply loop_system_invariant. constructor.
Qed.

(** C10 (round without tool-use blocks).  In a round whose response stops
    for tool use but holds no block of type [tool_use], with a tool
    manager supplied: the model call of the round is followed at once, with
    no dispatch in between, by the next model call of the run (the call of
    the next round, or the final call when the rounds are used up), and
    that call sees the messages of the round with the assistant turn
    appended and no results turn; from there the run is the run of the
    remaining rounds. *)
Theorem round_without_tool_blocks (self : AIGenerator) (sys : string)
  (tools : option (list ToolDefinition)) (tm : ToolManager)
  (n : nat) (messages : list Message) (tr : Trace) (r : Response) :
  client self tr (api_params self messages sys tools) = Return r ->
  stop_reason r = "tool_use" ->
  Forall (fun b => block_type b <> "tool_use") (content r) ->
  (exists rest : Trace,
      snd (tool_calling_loop self sys tools (Some tm) (S n) messages tr)
      = tr ++ ModelCall (api_params self messages sys tools)
           :: ModelCall (next_call self sys tools n
                           (messages ++ [assistant_turn r]))
           :: rest)
  /\ tool_calling_loop self sys tools (Some tm) (S n) messages tr
     = tool_calling_loop self sys tools (Some tm) n
         (messages ++ [assistant_turn r])
         (tr ++ [ModelCall (api_params self messages sys tools)]).
Proof.
  intros Hcall Hstop Hnone.
  assert (Hstep :
    tool_calling_loop self sys tools (Some tm) (S n) messages tr
    = tool_calling_loop self sys tools (Some tm) n
        (messages ++ [assistant_turn r])
        (tr ++ [ModelCall (api_params self messages sys tools)])).
  { rewrite (tool_round_unfold self sys tools tm n messages tr r Hcall Hstop).
    assert (Hret : batch_returns tm
                     (tr ++ [ModelCall (api_params self messages sys tools)])
                     (tool_uses (content r))).
    { intros i id name input Hi.
      rewrite (tool_uses_none _ Hnone) in Hi. discriminate Hi. }
    destruct (execute_tools_loop_returns tm (content r) [] _ Hret)
      as (results & Hrun & Hlen & _).
    rewrite Hrun, (tool_uses_none _ Hnone), app_nil_r.
    rewrite (tool_uses_none _ Hnone) in Hlen.
    destruct results; [reflexivity|discriminate Hlen]. }
  split; [|exact Hstep].
  rewrite Hstep.
  destruct (loop_first_call self sys tools (Some tm) n
              (messages ++ [assistant_turn r])
              (tr ++ [ModelCall (api_params self messages sys tools)]))
    as (rest & Hsnd).
  exists rest. rewrite Hsnd, <- app_assoc. reflexivity.
Qed.

Lemma round_without_tool_blocks_witness :
  let self := sample_generator
                (constant_client (Return response_without_tool_blocks)) in
  stop_reason response_without_tool_blocks = "tool_use"
  /\ Forall (fun b => block_type b <> "tool_use")
       (content response_without_tool_blocks)
  /\ exists rest : Trace,
       snd (generate_response self "Test query" None (Some sample_tools)
              (Some mock_tool_manager) [])
       = [] ++ ModelCall (api_params self [user_turn "Test query"]
                            SYSTEM_PROMPT (Some sample_tools))
            :: ModelCall (api_params self
                            ([user_turn "Test query"]
                               ++ [assistant_turn response_without_tool_blocks])
                            SYSTEM_PROMPT (Some sample_tools))
            :: rest.
Proof.
  intros self.
  assert (Hnone : Forall (fun b => block_type b <> "tool_use")
                    (content response_without_tool_blocks)).
  { repeat constructor. discriminate. }
  split; [reflexivity|]. split; [exact Hnone|].
  exact (proj1 (round_without_tool_blocks self SYSTEM_PROMPT
                  (Some sample_tools) mock_tool_manager 1
                  [user_turn "Test query"] []
                  response_without_tool_blocks eq_refl eq_refl Hnone)).
Defined.

(** C3 (tool batch of a round), as amended.  In a round whose response
    stops for tool use and holds at least one tool-use block, with a tool
    manager supplied whose dispatches for the requests of the round
    return text: right after the model call of the round the tool manager
    is called once per tool-use block, in block order, with the name and
    arguments of the block; the next model call of the run follows, and
    it sees the messages of the round with the assistant turn and then a
    single user turn appended; that user turn holds one [tool_result]
    entry per request, the entry at each position carrying the identifier
    of the request at that position and the text its dispatch returned;
    from there the run is the run of the remaining rounds. *)
Theorem round_appends_paired_results (self : AIGenerator) (sys : string)
  (tools : option (list ToolDefinition)) (tm : ToolManager)
  (n : nat) (messages : list Message) (tr : Trace) (r : Response) :
  client self tr (api_params self messages sys tools) = Return r ->
  stop_reason r = "tool_use" ->
  Exists (fun b => block_type b = "tool_use") (content r) ->
  (forall (i : nat) id name input,
      tool_uses (content r) !! i = Some (id, name, input) ->
      exists text,
        execute_tool tm
          (tr ++ ModelCall (api_params self messages sys tools)
              :: map dispatch_event (take i (tool_uses (content r))))
          name input = Return text) ->
  exists (results : list ToolResult) (rest : Trace),
    snd (tool_calling_loop self sys tools (Some tm) (S n) messages tr)
    = tr ++ ModelCall (api_params self messages sys tools)
         :: map dispatch_event (tool_uses (content r))
         ++ ModelCall (next_call self sys tools n
                         (messages ++ [assistant_turn r;
                                       results_turn results]))
         :: rest
    /\ length results = length (tool_uses (content r))
    /\ (forall (i : nat) id name input,
          tool_uses (content r) !! i = Some (id, name, input) ->
          exists text,
            execute_tool tm
              (tr ++ ModelCall (api_params self messages sys tools)
                  :: map dispatch_event (take i (tool_uses (content r))))
              name input = Return text
            /\ results !! i
               = Some {| tr_type := "tool_result";
                         tool_use_id := id;
                         tr_content := text |})
    /\ tool_calling_loop self sys tools (Some tm) (S n) messages tr
       = tool_calling_loop self sys tools (Some tm) n
           (messages ++ [assistant_turn r; results_turn results])
           (tr ++ ModelCall (api_params self messages sys tools)
               :: map dispatch_event (tool_uses (content r))).
Proof.
  intros Hcall Hstop Hsome Hret.
  assert (Hbatch : batch_returns tm
                     (tr ++ [ModelCall (api_params self messages sys tools)])
                     (tool_uses (content r))).
  { intros i id name input Hi. rewrite <- app_assoc. exact (Hret _ _ _ _ Hi). }
  destruct (tool_round_step self sys tools tm n messages tr r Hcall Hstop
              Hbatch) as (results & (Hlen & Hpt) & Hstep).
  assert (Hturns : round_turns r results
                   = [assistant_turn r; results_turn results]).
  { apply tool_uses_some in Hsome. unfold round_turns.
    destruct results; [|reflexivity].
    destruct (tool_uses (content r)); [contradiction|discriminate Hlen]. }
  rewrite Hturns in Hstep.
  destruct (loop_first_call self sys tools (Some tm) n
              (messages ++ [assistant_turn r; results_turn results])
              (tr ++ ModelCall (api_params self messages sys tools)
                  :: map dispatch_event (tool_uses (content r))))
    as (rest & Hsnd).
  exists results, rest. split; [|split; [|split]].
  - rewrite Hstep, Hsnd, <- app_assoc. reflexivity.
  - exact Hlen.
  - intros i id name input Hi.
    destruct (Hpt i id name input Hi) as (text & Hx & Hres).
    exists text. split; [|exact Hres].
    rewrite <- Hx, <- app_assoc. reflexivity.
  - exact Hstep.
Qed.

Lemma round_appends_paired_results_witness :
  let self := sample_generator
                (constant_client (Return mock_anthropic_response_with_tool)) in
  let params := api_params self [user_turn "Test query"] SYSTEM_PROMPT
                  (Some sample_tools) in
  let results := [ {| tr_type := "tool_result";
                      tool_use_id := "tool_123";
                      tr_content := "Search results returned successfully" |} ] in
  stop_reason mock_anthropic_response_with_tool = "tool_use"
  /\ Exists (fun b => block_type b = "tool_use")
       (content mock_anthropic_response_with_tool)
  /\ exists rest : Trace,
       snd (generate_response self "Test query" None (Some sample_tools)
              (Some mock_tool_manager) [])
       = [] ++ ModelCall params
            :: [ToolCall "search_course_content"
                  {[ "query" := JStr "testing basics" ]}]
            ++ ModelCall (api_params self
                            ([user_turn "Test query"]
                               ++ [assistant_turn
                                     mock_anthropic_response_with_tool;
                                   results_turn results])
                            SYSTEM_PROMPT (Some sample_tools))
            :: rest.
Proof.
  intros self params results.
  assert (Hsome : Exists (fun b => block_type b = "tool_use")
                    (content mock_anthropic_response_with_tool)).
  { left. reflexivity. }
  split; [reflexivity|]. split; [exact Hsome|].
  assert (Hret : forall (i : nat) id name input,
             tool_uses (content mock_anthropic_response_with_tool) !! i
             = Some (id, name, input) ->
             exists text,
               execute_tool mock_tool_manager
                 ([] ++ ModelCall params
                     :: map dispatch_event
                          (take i (tool_uses
                                     (content
                                        mock_anthropic_response_with_tool))))
                 name input = Return text).
  { intros i id name input _. now eexists. }
  destruct (round_appends_paired_results self SYSTEM_PROMPT
              (Some sample_tools) mock_tool_manager 1
              [user_turn "Test query"] []
              mock_anthropic_response_with_tool eq_refl eq_refl Hsome Hret)
    as (results' & rest & Hsnd & Hlen & Hpt & _).
  exists rest.
  destruct (Hpt 0%nat "tool_123" "search_course_content"
              {[ "query" := JStr "testing basics" ]} eq_refl)
    as (text & Hx & Hres).
  injection Hx as <-.
  destruct results' as [|res [|res' results']];
    [discriminate Hlen| |discriminate Hlen].
  injection Hres as ->. exact Hsnd.
Defined.

(** C3 as stated fails when the response stops for tool use without any
    tool-use block: the round does not append a user turn, so the next
    model call does not see one, whatever results the turn would hold. *)
Lemma results_turn_not_appended_without_tool_blocks :
  let self := sample_generator
                (constant_client (Return response_without_tool_blocks)) in
  ~ exists (results : list ToolResult) (rest : Trace),
      snd (tool_calling_loop self SYSTEM_PROMPT (Some sample_tools)
             (Some mock_tool_manager) 1 [user_turn "Test query"] [])
      = [] ++ ModelCall (api_params self [user_turn "Test query"]
                           SYSTEM_PROMPT (Some sample_tools))
           :: map dispatch_event
                (tool_uses (content response_without_tool_blocks))
           ++ ModelCall (next_call self SYSTEM_PROMPT (Some sample_tools) 0
                           ([user_turn "Test query"]
                              ++ [assistant_turn response_without_tool_blocks;
                                  results_turn results]))
           :: rest.
Proof.
  intros self (results & rest & H).
  assert (Hrun :
    snd (tool_calling_loop self SYSTEM_PROMPT (Some sample_tools)
           (Some mock_tool_manager) 1 [user_turn "Test query"] [])
    = [ModelCall (api_params self [user_turn "Test query"]
                    SYSTEM_PROMPT (Some sample_tools));
       ModelCall (base_call self
                    [user_turn "Test query";
                     assistant_turn response_without_tool_blocks]
                    SYSTEM_PROMPT)]) by reflexivity.
  rewrite Hrun in H. cbn [app map tool_uses omap content
                           response_without_tool_blocks next_call] in H.
  injection H as H _. discriminate H.
Qed.

(** C1 (round bound), as amended.  With a tool manager supplied whose
    dispatches return text, and a model whose responses all stop for tool
    use, [generate_response] makes [MAX_TOOL_ROUNDS] (= 2) model calls
    inside the loop, each with the tools that were offered, then exactly
    one more model call whose parameters hold neither [tools] nor
    [tool_choice]; its outcome is [content[0].text] of the response to
    that last call, so that when the first content block of that response
    is a text block the run returns its text; at most 2 of its model
    calls offer tools and it makes [MAX_TOOL_ROUNDS + 1] = 3 model calls
    in total. *)
Theorem max_rounds_then_final_call (self : AIGenerator) (query : string)
  (conversation_history : option string)
  (tools : option (list ToolDefinition)) (tm : ToolManager) :
  (forall tr p, exists r,
      client self tr p = Return r /\ stop_reason r = "tool_use") ->
  dispatch_returns tm ->
  exists (rounds : Trace) (final_params : ApiParams) (final_response : Response),
    generate_response self query conversation_history tools (Some tm) []
    = (first_text final_response, rounds ++ [ModelCall final_params])
    /\ client self rounds final_params = Return final_response
    /\ p_tools final_params = None
    /\ p_tool_choice final_params = None
    /\ length (model_calls rounds) = MAX_TOOL_ROUNDS
    /\ Forall (fun p => p_tools p = if truthy_list tools then tools else None)
         (model_calls rounds)
    /\ length (List.filter offers_tools
                 (model_calls (rounds ++ [ModelCall final_params]))) <= 2
    /\ length (model_calls (rounds ++ [ModelCall final_params])) = 3
    /\ forall text rest,
         content final_response = TextBlock text :: rest ->
         fst (generate_response self query conversation_history tools
                (Some tm) [])
         = Return text.
Proof.
  intros Hall Hret.
  destruct (exhausted_rounds self (build_system_content conversation_history)
              tools tm MAX_TOOL_ROUNDS Hall Hret [user_turn query] [])
    as (rounds & pf & rf & Hrun & Hrf & Ht & Hc & Hlen & Htools).
  exists rounds, pf, rf.
  rewrite model_calls_app. change (model_calls [ModelCall pf]) with [pf].
  repeat split; try assumption.
  - rewrite List.filter_app, length_app. cbn [List.filter].
    unfold offers_tools at 2. rewrite Ht. cbn [length].
    pose proof (List.filter_length_le offers_tools (model_calls rounds)) as Hle.
    rewrite Hlen in Hle. unfold MAX_TOOL_ROUNDS in Hle. lia.
  - rewrite length_app, Hlen. reflexivity.
  - intros text rest Hcontent.
    unfold generate_response. fold (user_turn query). rewrite Hrun.
    unfold first_text. now rewrite Hcontent.
Qed.

Lemma max_rounds_then_final_call_witness :
  let self := sample_generator
                (constant_client (Return response_text_then_tool)) in
  (forall tr p, exists r,
      client self tr p = Return r /\ stop_reason r = "tool_use")
  /\ dispatch_returns mock_tool_manager
  /\ exists (rounds : Trace) (final_params : ApiParams),
       generate_response self "Complex query" None (Some sample_tools)
         (Some mock_tool_manager) []
       = (Return "Let me search the course materials.",
          rounds ++ [ModelCall final_params])
       /\ p_tools final_params = None
       /\ p_tool_choice final_params = None
       /\ length (model_calls (rounds ++ [ModelCall final_params])) = 3.
Proof.
  intros self.
  assert (Hall : forall tr p, exists r,
             client self tr p = Return r /\ stop_reason r = "tool_use").
  { intros tr p. exists response_text_then_tool. split; reflexivity. }
  assert (Hret : dispatch_returns mock_tool_manager).
  { intros tr name input. now eexists. }
  split; [exact Hall|]. split; [exact Hret|].
  destruct (max_rounds_then_final_call self "Complex query" None
              (Some sample_tools) mock_tool_manager Hall Hret)
    as (rounds & pf & rf & Hrun & Hrf & Ht & Hc & _ & _ & _ & Htotal & _).
  exists rounds, pf. split; [|repeat split; assumption].
  rewrite Hrun. injection Hrf as <-. reflexivity.
Defined.

(** C1 as stated fails without a tool manager: the first response that
    stops for tool use ends the run after a single model call, which
    offers the tools; no call without tools follows. *)
Lemma no_final_call_without_tool_manager :
  let self := sample_generator
                (constant_client (Return response_without_tool_blocks)) in
  (forall tr p, exists r,
      client self tr p = Return r /\ stop_reason r = "tool_use")
  /\ ~ exists (rounds : Trace) (final_params : ApiParams)
         (final_response : Response),
         generate_response self "Complex query" None (Some sample_tools)
           None []
         = (first_text final_response, rounds ++ [ModelCall final_params])
         /\ p_tools final_params = None.
Proof.
  intros self. split.
  { intros tr p. exists response_without_tool_blocks. split; reflexivity. }
  intros (rounds & pf & rf & Hrun & Ht).
  unfold generate_response, MAX_TOOL_ROUNDS in Hrun.
  rewrite (round_exit self _ _ None _ _ [] response_without_tool_blocks
             eq_refl (or_intror eq_refl)) in Hrun.
  injection Hrun as _ Hrun. symmetry in Hrun.
  apply single_call_split in Hrun as (_ & _ & ->).
  discriminate Ht.
Qed.

(** C8 (model-call failure).  Whenever a model call of a run of
    [generate_response] raises, the run ends with that very exception and
    the failing call is the last event of the run: it is not repeated and
    no model call (and no dispatch) comes after it. *)
Theorem model_failure_propagates (self : AIGenerator) (query : string)
  (conversation_history : option string)
  (tools : option (list ToolDefinition)) (tmo : option ToolManager)
  (tr pre post : Trace) (p : ApiParams) (e : exn) :
  snd (generate_response self query conversation_history tools tmo tr)
  = tr ++ pre ++ ModelCall p :: post ->
  client self (tr ++ pre) p = Raise e ->
  fst (generate_response self query conversation_history tools tmo tr)
  = Raise e
  /\ post = [].
Proof.
  intros Htrace Hraise. unfold generate_response in *.
  destruct (loop_failure_is_last self
              (build_system_content conversation_history) tools tmo
              MAX_TOOL_ROUNDS [user_turn query] tr)
    as (ext & Hsnd & Hlast).
  fold (user_turn query) in Htrace.
  rewrite Hsnd in Htrace. apply app_inv_head in Htrace. subst ext.
  destruct (Hlast pre p post e eq_refl Hraise) as [Hpost Hres].
  split; assumption.
Qed.

Lemma model_failure_propagates_witness :
  let self := sample_generator
                (scripted_client
                   [Return mock_anthropic_response_with_tool;
                    Raise (APIError "overloaded")]) in
  let p1 := api_params self [user_turn "Test query"] SYSTEM_PROMPT
              (Some sample_tools) in
  let pre := [ModelCall p1;
              ToolCall "search_course_content"
                {[ "query" := JStr "testing basics" ]}] in
  exists p2 : ApiParams,
    snd (generate_response self "Test query" None (Some sample_tools)
           (Some mock_tool_manager) [])
    = [] ++ pre ++ ModelCall p2 :: []
    /\ client self ([] ++ pre) p2 = Raise (APIError "overloaded")
    /\ fst (generate_response self "Test query" None (Some sample_tools)
              (Some mock_tool_manager) [])
       = Raise (APIError "overloaded").
Proof.
  intros self p1 pre. eexists.
  assert (Htrace :
    snd (generate_response self "Test query" None (Some sample_tools)
           (Some mock_tool_manager) [])
    = [] ++ pre ++ ModelCall _ :: []) by reflexivity.
  split; [exact Htrace|]. split; [reflexivity|].
  exact (proj1 (model_failure_propagates self "Test query" None
                  (Some sample_tools) (Some mock_tool_manager)
                  [] pre [] _ (APIError "overloaded") Htrace eq_refl)).
Defined.

(** ** Properties of the tool layer *)

Lemma append_assoc (s1 s2 s3 : string) :
  (s1 +:+ s2) +:+ s3 = s1 +:+ (s2 +:+ s3).
Proof.
  induction s1 as [|a s1 IH]; [reflexivity|].
  change (String a ((s1 +:+ s2) +:+ s3) = String a (s1 +:+ (s2 +:+ s3))).
  now rewrite IH.
Qed.

(** C5 (unknown tool).  Dispatching a name that is not registered,
    with any arguments, does not raise: it returns the text
    [Tool '{name}' not found]. *)
Theorem execute_tool_not_found (self : search_tools.ToolManager)
  (tool_name : string) (args : kwargs) :
  search_tools.tools self !! tool_name = None ->
  search_tools.execute_tool self tool_name args
  = Return ("Tool '" +:+ tool_name +:+ "' not found").
Proof.
  intros Hnone. unfold search_tools.execute_tool. now rewrite Hnone.
Qed.

Lemma execute_tool_not_found_witness :
  let manager := {| search_tools.tools := ∅ |} in
  search_tools.tools manager !! "nonexistent_tool" = None
  /\ search_tools.execute_tool manager "nonexistent_tool"
       {[ "query" := JStr "test" ]}
     = Return "Tool 'nonexistent_tool' not found".
Proof.
  intros manager.
  assert (Hnone : search_tools.tools manager !! "nonexistent_tool" = None)
    by reflexivity.
  split; [exact Hnone|].
  exact (execute_tool_not_found manager "nonexistent_tool"
           {[ "query" := JStr "test" ]} Hnone).
Defined.

(** C6 (empty-result phrasing).  When the retrieval collaborator reports
    no error and no hit, the text returned by the search tool is fixed by
    the filters that were supplied: the base sentence without filters,
    the course clause with a course filter, the lesson clause with a
    lesson filter, and the course clause followed by the lesson clause
    with both. *)
Theorem empty_result_phrasing (self : search_tools.CourseSearchTool)
  (query : string) (course_name : option string)
  (lesson_number : option Z) :
  search_tools.error
    (search_tools.search (search_tools.store self) query course_name
       lesson_number) = None ->
  search_tools.documents
    (search_tools.search (search_tools.store self) query course_name
       lesson_number) = [] ->
  fst (search_tools.execute self query course_name lesson_number)
  = match course_name, lesson_number with
    | None, None => "No relevant content found."
    | Some c, None => "No relevant content found in course '" +:+ c +:+ "'."
    | None, Some n =>
        "No relevant content found in lesson " +:+ pretty n +:+ "."
    | Some c, Some n =>
        "No relevant content found in course '" +:+ c +:+ "' in lesson "
          +:+ pretty n +:+ "."
    end.
Proof.
  intros Herr Hdocs. unfold search_tools.execute.
  rewrite Herr, Hdocs. cbn [fst]. unfold search_tools.empty_message.
  destruct course_name as [c|], lesson_number as [n|].
  - rewrite !append_assoc. reflexivity.
  - rewrite !append_assoc. reflexivity.
  - rewrite !append_assoc. reflexivity.
  - reflexivity.
Qed.

Lemma empty_result_phrasing_witness :
  let tool := {| search_tools.store := empty_store;
                 search_tools.last_sources := [] |} in
  search_tools.error
    (search_tools.search (search_tools.store tool) "x" (Some "C") (Some 3%Z))
  = None
  /\ search_tools.documents
       (search_tools.search (search_tools.store tool) "x" (Some "C")
          (Some 3%Z)) = []
  /\ fst (search_tools.execute tool "x" (Some "C") (Some 3%Z))
     = "No relevant content found in course 'C' in lesson 3.".
Proof.
  intros tool. split; [reflexivity|]. split; [reflexivity|].
  exact (empty_result_phrasing tool "x" (Some "C") (Some 3%Z)
           eq_refl eq_refl).
Defined.

(** C7 (retrieval error).  When the retrieval collaborator returns an
    error indicator, the search tool returns the message of the error as
    its result text, unchanged. *)
Theorem search_error_returned_verbatim (self : search_tools.CourseSearchTool)
  (query : string) (course_name : option string)
  (lesson_number : option Z) (message : string) :
  search_tools.error
    (search_tools.search (search_tools.store self) query course_name
       lesson_number) = Some message ->
  fst (search_tools.execute self query course_name lesson_number) = message.
Proof.
  intros Herr. unfold search_tools.execute. now rewrite Herr.
Qed.

Lemma search_error_returned_verbatim_witness :
  let tool := {| search_tools.store := failing_store;
                 search_tools.last_sources := [] |} in
  search_tools.error
    (search_tools.search (search_tools.store tool) "testing basics" None None)
  = Some "Course not found"
  /\ fst (search_tools.execute tool "testing basics" None None)
     = "Course not found".
Proof.
  intros tool. split; [reflexivity|].
  exact (search_error_returned_verbatim tool "testing basics" None None
           "Course not found" eq_refl).
Defined.

(** ** The shape of a run *)

(** A run only appends to the trace; it makes at least one and at most
    [n + 1] model calls when [n] rounds are left. *)
Lemma loop_call_bound (self : AIGenerator) (sys : string)
  (tools : option (list ToolDefinition)) (tmo : option ToolManager)
  (n : nat) :
  forall (messages : list Message) (tr : Trace),
  exists ext : Trace,
    snd (tool_calling_loop self sys tools tmo n messages tr) = tr ++ ext
    /\ 1 <= length (model_calls ext) <= n + 1.
Proof.
  induction n as [|n IH]; intros messages tr.
  - rewrite final_call. eexists. split; [reflexivity|]. simpl. lia.
  - destruct (loop_step_cases self sys tools tmo n messages tr)
      as [Hexit|[(tm & r & results & _ & _ & _ & _ & Hstep)|(tm & r & e & j & id & name & input & _ & _ & _ & _ & _ & Hcut)]].
    + rewrite Hexit. eexists. split; [reflexivity|]. simpl. lia.
    + rewrite Hstep.
      match goal with
      | |- context [tool_calling_loop _ _ _ _ n ?m ?t] =>
          destruct (IH m t) as (ext & Hsnd & Hbound)
      end.
      eexists. split.
      * rewrite Hsnd, <- app_assoc. cbn [app]. reflexivity.
      * rewrite model_calls_round. cbn [length]. lia.
    + rewrite Hcut. eexists. split; [reflexivity|].
      rewrite model_calls_round_cut. cbn [length]. lia.
Qed.

(** X1.  Whatever the model and the tool manager answer, exceptions
    included, a run of [generate_response] only appends to the trace and
    makes at least one and at most [MAX_TOOL_ROUNDS + 1] = 3 model
    calls. *)
Theorem model_calls_bounded (self : AIGenerator) (query : string)
  (conversation_history : option string)
  (tools : option (list ToolDefinition)) (tmo : option ToolManager)
  (tr : Trace) :
  exists ext : Trace,
    snd (generate_response self query conversation_history tools tmo tr)
    = tr ++ ext
    /\ 1 <= length (model_calls ext) <= 3.
Proof.
  unfold generate_response.
  exact (loop_call_bound self _ tools tmo MAX_TOOL_ROUNDS _ tr).
Qed.

(** X5.  Without a tool manager a run makes exactly one model call and
    dispatches nothing, whatever the model answers: its outcome is the
    first-block text of the response, or the exception of the call. *)
Theorem no_tool_manager_single_call (self : AIGenerator) (query : string)
  (conversation_history : option string)
  (tools : option (list ToolDefinition)) (tr : Trace) :
  generate_response self query conversation_history tools None tr
  = (match client self tr
             (first_call self query conversation_history tools) with
     | Return r => first_text r
     | Raise e => Raise e
     end,
     tr ++ [ModelCall (first_call self query conversation_history tools)]).
Proof.
  unfold generate_response, MAX_TOOL_ROUNDS, first_call.
  destruct (loop_step_cases self (build_system_content conversation_history)
              tools None 1 [user_turn query] tr)
    as [Hexit|[(tm & _ & _ & Hsome & _)|(tm & _ & _ & _ & _ & _ & _ & Hsome & _)]];
    [exact Hexit|discriminate Hsome|discriminate Hsome].
Qed.

(** The run ends right after a model call, which decides the outcome, or
    right after a dispatch that raised. *)
Lemma loop_last_event (self : AIGenerator) (sys : string)
  (tools : option (list ToolDefinition)) (tmo : option ToolManager)
  (n : nat) :
  forall (messages : list Message) (tr : Trace),
  exists pre : Trace,
    (exists p : ApiParams,
        tool_calling_loop self sys tools tmo n messages tr
        = (match client self (tr ++ pre) p with
           | Return r => first_text r
           | Raise e => Raise e
           end, tr ++ pre ++ [ModelCall p]))
    \/ (exists (tm : ToolManager) name input e,
          tmo = Some tm
          /\ execute_tool tm (tr ++ pre) name input = Raise e
          /\ tool_calling_loop self sys tools tmo n messages tr
             = (Raise e, tr ++ pre ++ [ToolCall name input])).
Proof.
  induction n as [|n IH]; intros messages tr.
  - exists []. left. exists (base_call self messages sys).
    rewrite final_call, app_nil_r. reflexivity.
  - destruct (loop_step_cases self sys tools tmo n messages tr)
      as [Hexit|[(tm & r & results & _ & _ & _ & _ & Hstep)
                |(tm & r & e & j & id & name & input
                  & Htm & _ & _ & Hj & He & Hcut)]].
    + exists []. left. exists (api_params self messages sys tools).
      rewrite Hexit, app_nil_r. reflexivity.
    + rewrite Hstep.
      match goal with
      | |- context [tool_calling_loop _ _ _ _ n ?m ?t] =>
          destruct (IH m t) as (pre & Hlast)
      end.
      exists (ModelCall (api_params self messages sys tools)
                :: map dispatch_event (tool_uses (content r)) ++ pre).
      assert (Htr : forall l : Trace,
        (tr ++ ModelCall (api_params self messages sys tools)
            :: map dispatch_event (tool_uses (content r))) ++ l
        = tr ++ (ModelCall (api_params self messages sys tools)
                   :: map dispatch_event (tool_uses (content r)) ++ l)).
      { intros l. now rewrite <- app_assoc. }
      destruct Hlast as [(p & Hrun)|(tm' & name & input & e & Htm & He & Hrun)].
      * left. exists p. rewrite Hrun, !Htr.
        cbn [app]. now rewrite <- ?app_assoc.
      * right. exists tm', name, input, e. rewrite Hrun, !Htr in *.
        repeat split; try assumption.
        cbn [app]. now rewrite <- ?app_assoc.
    + exists (ModelCall (api_params self messages sys tools)
                :: map dispatch_event (take j (tool_uses (content r)))).
      right. exists tm, name, input, e.
      split; [exact Htm|]. split; [exact He|].
      rewrite Hcut. f_equal. f_equal. cbn [app]. f_equal.
      rewrite (take_S_r _ _ _ Hj), map_app. reflexivity.
Qed.

(** X6.  Every run of [generate_response] ends in one of two ways.
    Either right after a model call, and its outcome is read off that
    call: the text of the first content block of its response
    ([IndexError] or [AttributeError] when there is none), or the
    exception the call raised.  Or right after a dispatch of the tool
    manager that raised, with the exception of that dispatch. *)
Theorem answer_comes_from_last_call (self : AIGenerator) (query : string)
  (conversation_history : option string)
  (tools : option (list ToolDefinition)) (tmo : option ToolManager)
  (tr : Trace) :
  exists pre : Trace,
    (exists p : ApiParams,
        generate_response self query conversation_history tools tmo tr
        = (match client self (tr ++ pre) p with
           | Return r => first_text r
           | Raise e => Raise e
           end, tr ++ pre ++ [ModelCall p]))
    \/ (exists (tm : ToolManager) name input e,
          tmo = Some tm
          /\ execute_tool tm (tr ++ pre) name input = Raise e
          /\ generate_response self query conversation_history tools tmo tr
             = (Raise e, tr ++ pre ++ [ToolCall name input])).
Proof.
  unfold generate_response.
  exact (loop_last_event self _ tools tmo MAX_TOOL_ROUNDS _ tr).
Qed.

(** ** Invariants of the calls of a run *)

Lemma api_params_messages (self : AIGenerator) (messages : list Message)
  (sys : string) (tools : option (list ToolDefinition)) :
  p_messages (api_params self messages sys tools) = messages.
Proof. unfold api_params. now destruct (truthy_list tools). Qed.

(** A property [J] of the messages that every round keeps gives a
    property [P] of every model call of the run. *)
Lemma loop_calls_invariant (self : AIGenerator) (sys : string)
  (tools : option (list ToolDefinition)) (tmo : option ToolManager)
  (J : list Message -> Prop) (P : ApiParams -> Prop) :
  (forall m, J m -> P (api_params self m sys tools)) ->
  (forall m, J m -> P (base_call self m sys)) ->
  (forall m tr r results,
      J m ->
      client self tr (api_params self m sys tools) = Return r ->
      stop_reason r = "tool_use" ->
      length results = length (tool_uses (content r)) ->
      J (m ++ round_turns r results)) ->
  forall (n : nat) (messages : list Message) (tr : Trace),
    J messages ->
    exists ext : Trace,
      snd (tool_calling_loop self sys tools tmo n messages tr) = tr ++ ext
      /\ Forall P (model_calls ext).
Proof.
  intros Hround Hfinal Hkeep.
  induction n as [|n IH]; intros messages tr HJ.
  - rewrite final_call. eexists. split; [reflexivity|].
    repeat constructor. now apply Hfinal.
  - destruct (loop_step_cases self sys tools tmo n messages tr)
      as [Hexit|[(tm & r & results & _ & Hc & Hstop & (Hlen & _) & Hstep)|(tm & r & e & j & id & name & input & _ & _ & _ & _ & _ & Hcut)]].
    + rewrite Hexit. eexists. split; [reflexivity|].
      repeat constructor. now apply Hround.
    + rewrite Hstep.
      match goal with
      | |- context [tool_calling_loop _ _ _ _ n ?m ?t] =>
          destruct (IH m t (Hkeep _ _ _ _ HJ Hc Hstop Hlen))
            as (ext & Hsnd & Hall)
      end.
      eexists. split.
      * rewrite Hsnd, <- app_assoc. cbn [app]. reflexivity.
      * rewrite model_calls_round. constructor; [now apply Hround|exact Hall].
    + rewrite Hcut. eexists. split; [reflexivity|].
      rewrite model_calls_round_cut. repeat constructor. now apply Hround.
Qed.

(** X2.  Every model call of a run carries the generator's model,
    temperature 0, at most 800 tokens, and one and the same system
    instruction, the one built from the conversation history. *)
Theorem every_call_carries_base_params (self : AIGenerator) (query : string)
  (conversation_history : option string)
  (tools : option (list ToolDefinition)) (tmo : option ToolManager)
  (tr : Trace) :
  exists ext : Trace,
    snd (generate_response self query conversation_history tools tmo tr)
    = tr ++ ext
    /\ Forall (fun p => p_model p = model self
                        /\ p_temperature p = 0%Z
                        /\ p_max_tokens p = 800%Z
                        /\ p_system p
                           = build_system_content conversation_history)
         (model_calls ext).
Proof.
  unfold generate_response.
  apply (loop_calls_invariant self _ tools tmo (fun _ => True)); auto.
  intros m _. unfold api_params.
  destruct (truthy_list tools); repeat split.
Qed.

(** X3.  With a non-empty conversation history, the system instruction
    of every model call of a run is the system prompt, a blank line, the
    heading [Previous conversation:] and the history on the next line. *)
Theorem history_block_in_every_call (self : AIGenerator) (query : string)
  (history : string) (tools : option (list ToolDefinition))
  (tmo : option ToolManager) (tr : Trace) :
  history <> EmptyString ->
  exists ext : Trace,
    snd (generate_response self query (Some history) tools tmo tr)
    = tr ++ ext
    /\ Forall (fun p => p_system p
                        = SYSTEM_PROMPT +:+ nl +:+ nl
                            +:+ "Previous conversation:" +:+ nl +:+ history)
         (model_calls ext).
Proof.
  intros Hne. unfold generate_response.
  assert (Hsys : build_system_content (Some history)
                 = SYSTEM_PROMPT +:+ nl +:+ nl
                     +:+ "Previous conversation:" +:+ nl +:+ history).
  { destruct history; [contradiction|reflexivity]. }
  rewrite Hsys.
  apply (loop_calls_invariant self _ tools tmo (fun _ => True)); auto.
  intros m _. apply api_params_system.
Qed.

Lemma history_block_in_every_call_witness :
  let self := sample_generator
                (constant_client (Return mock_anthropic_response_simple)) in
  let history := "User: Hello" +:+ nl +:+ "Assistant: Hi there!" in
  history <> EmptyString
  /\ exists ext : Trace,
       snd (generate_response self "Test query" (Some history) None None [])
       = [] ++ ext
       /\ Forall (fun p => p_system p
                           = SYSTEM_PROMPT +:+ nl +:+ nl
                               +:+ "Previous conversation:" +:+ nl +:+ history)
            (model_calls ext).
Proof.
  intros self history.
  assert (Hne : history <> EmptyString) by discriminate.
  split; [exact Hne|].
  exact (history_block_in_every_call self "Test query" history None None
           [] Hne).
Defined.

(** The tools of the calls of a run, call by call. *)
Lemma loop_tools_by_index (self : AIGenerator) (sys : string)
  (tools : option (list ToolDefinition)) (tmo : option ToolManager)
  (n : nat) :
  forall (messages : list Message) (tr : Trace),
  exists ext : Trace,
    snd (tool_calling_loop self sys tools tmo n messages tr) = tr ++ ext
    /\ forall (i : nat) (p : ApiParams),
         model_calls ext !! i = Some p ->
         (i < n ->
          p_tools p = (if truthy_list tools then tools else None)
          /\ p_tool_choice p
             = (if truthy_list tools then Some auto_choice else None))
         /\ (i = n -> p_tools p = None /\ p_tool_choice p = None)
         /\ i <= n.
Proof.
  assert (Hround : forall m,
    p_tools (api_params self m sys tools)
    = (if truthy_list tools then tools else None)
    /\ p_tool_choice (api_params self m sys tools)
       = (if truthy_list tools then Some auto_choice else None)).
  { intros m. unfold api_params. now destruct (truthy_list tools). }
  induction n as [|n IH]; intros messages tr.
  - rewrite final_call. eexists. split; [reflexivity|].
    intros [|i] p Hi; [|discriminate Hi].
    injection Hi as <-. repeat split; lia.
  - destruct (loop_step_cases self sys tools tmo n messages tr)
      as [Hexit|[(tm & r & results & _ & _ & _ & _ & Hstep)|(tm & r & e & j & id & name & input & _ & _ & _ & _ & _ & Hcut)]];
      [| |rewrite Hcut; eexists; split; [reflexivity|];
          rewrite model_calls_round_cut;
          intros [|i] p Hi; [|discriminate Hi];
          injection Hi as <-; split; [intros _; apply Hround|]; split; lia].
    + rewrite Hexit. eexists. split; [reflexivity|].
      intros [|i] p Hi; [|discriminate Hi].
      injection Hi as <-. split; [intros _; apply Hround|]. split; lia.
    + rewrite Hstep.
      match goal with
      | |- context [tool_calling_loop _ _ _ _ n ?m ?t] =>
          destruct (IH m t) as (ext & Hsnd & Hidx)
      end.
      eexists. split.
      * rewrite Hsnd, <- app_assoc. cbn [app]. reflexivity.
      * rewrite model_calls_round. intros [|i] p Hi.
        -- injection Hi as <-. split; [intros _; apply Hround|]. split; lia.
        -- destruct (Hidx i p Hi) as (Hlt & Heq & Hle).
           split; [intros H; apply Hlt; lia|].
           split; [intros H; apply Heq; lia|lia].
Qed.

(** X4.  In a run of [generate_response] the first two model calls carry
    the tools that were supplied together with the automatic tool choice
    (or neither, when no tools or an empty list were supplied); a third
    call, if there is one, carries neither; there is no fourth call.  In
    no call is [tool_choice] set without [tools]. *)
Theorem tools_withheld_only_on_final_call (self : AIGenerator)
  (query : string) (conversation_history : option string)
  (tools : option (list ToolDefinition)) (tmo : option ToolManager)
  (tr : Trace) :
  exists ext : Trace,
    snd (generate_response self query conversation_history tools tmo tr)
    = tr ++ ext
    /\ forall (i : nat) (p : ApiParams),
         model_calls ext !! i = Some p ->
         (i < 2 ->
          p_tools p = (if truthy_list tools then tools else None)
          /\ p_tool_choice p
             = (if truthy_list tools then Some auto_choice else None))
         /\ (i = 2 -> p_tools p = None /\ p_tool_choice p = None)
         /\ i <= 2
         /\ (p_tools p = None -> p_tool_choice p = None).
Proof.
  unfold generate_response.
  destruct (loop_tools_by_index self
              (build_system_content conversation_history) tools tmo
              MAX_TOOL_ROUNDS [user_turn query] tr) as (ext & Hsnd & Hidx).
  exists ext. split; [exact Hsnd|].
  intros i p Hi. destruct (Hidx i p Hi) as (Hlt & Heq & Hle).
  unfold MAX_TOOL_ROUNDS in *.
  repeat split; try (intros; apply Hlt; assumption);
    try (intros; apply Heq; assumption); try assumption.
  intros Hnone.
  destruct (Nat.eq_dec i 2) as [->|Hne]; [now apply Heq|].
  destruct Hlt as [Ht Hc]; [lia|].
  rewrite Hc. rewrite Ht in Hnone.
  destruct (truthy_list tools) eqn:Htruthy; [|reflexivity].
  subst tools. discriminate Htruthy.
Qed.

(** ** The messages of the calls *)

Lemma loop_messages_chain (self : AIGenerator) (sys : string)
  (tools : option (list ToolDefinition)) (tmo : option ToolManager)
  (n : nat) :
  forall (messages : list Message) (tr : Trace),
  exists ext : Trace,
    snd (tool_calling_loop self sys tools tmo n messages tr) = tr ++ ext
    /\ Forall (fun p => messages `prefix_of` p_messages p) (model_calls ext)
    /\ StronglySorted messages_extend (model_calls ext).
Proof.
  induction n as [|n IH]; intros messages tr.
  - rewrite final_call. eexists. split; [reflexivity|].
    split.
    + constructor; [|constructor]. exists []. cbn [base_call p_messages].
      now rewrite app_nil_r.
    + constructor; constructor.
  - destruct (loop_step_cases self sys tools tmo n messages tr)
      as [Hexit|[(tm & r & results & _ & _ & _ & _ & Hstep)|(tm & r & e & j & id & name & input & _ & _ & _ & _ & _ & Hcut)]];
      [| |rewrite Hcut; eexists; split; [reflexivity|];
          rewrite model_calls_round_cut; split;
          [constructor; [|constructor]; exists [];
           now rewrite api_params_messages, app_nil_r
          |constructor; constructor]].
    + rewrite Hexit. eexists. split; [reflexivity|].
      split.
      * constructor; [|constructor]. exists [].
        now rewrite api_params_messages, app_nil_r.
      * constructor; constructor.
    + rewrite Hstep.
      match goal with
      | |- context [tool_calling_loop _ _ _ _ n ?m ?t] =>
          destruct (IH m t) as (ext & Hsnd & Hpre & Hchain)
      end.
      assert (Hpre' : Forall (fun p => messages `prefix_of` p_messages p)
                        (model_calls ext)).
      { eapply Forall_impl; [exact Hpre|].
        intros p [k Hk]. exists (round_turns r results ++ k).
        now rewrite Hk, <- app_assoc. }
      eexists. split; [|split].
      * rewrite Hsnd, <- app_assoc. cbn [app]. reflexivity.
      * rewrite model_calls_round. constructor; [|exact Hpre'].
        exists []. now rewrite api_params_messages, app_nil_r.
      * rewrite model_calls_round. constructor; [exact Hchain|].
        eapply Forall_impl; [exact Hpre'|].
        intros p Hp. unfold messages_extend.
        now rewrite api_params_messages.
Qed.

(** X7.  The messages of every model call of a run start with the user
    turn that holds the query, and the calls form a chain: the messages
    of a call are those of every earlier call, extended at the end. *)
Theorem messages_grow_from_query (self : AIGenerator) (query : string)
  (conversation_history : option string)
  (tools : option (list ToolDefinition)) (tmo : option ToolManager)
  (tr : Trace) :
  exists ext : Trace,
    snd (generate_response self query conversation_history tools tmo tr)
    = tr ++ ext
    /\ Forall (fun p => exists rest,
                 p_messages p = user_turn query :: rest) (model_calls ext)
    /\ StronglySorted messages_extend (model_calls ext).
Proof.
  unfold generate_response.
  destruct (loop_messages_chain self
              (build_system_content conversation_history) tools tmo
              MAX_TOOL_ROUNDS [user_turn query] tr)
    as (ext & Hsnd & Hpre & Hchain).
  exists ext. split; [exact Hsnd|]. split; [exact Hpre|exact Hchain].
Qed.

Lemma roles_alternate_app (ms1 ms2 : list Message) :
  forall user_next : bool,
  roles_alternate user_next (ms1 ++ ms2)
  = roles_alternate user_next ms1
    && roles_alternate (if Nat.even (length ms1) then user_next
                        else negb user_next) ms2.
Proof.
  induction ms1 as [|m ms1 IH]; intros user_next.
  - reflexivity.
  - cbn [app roles_alternate length]. rewrite IH, Nat.even_succ.
    rewrite <- Nat.negb_even.
    destruct (Nat.even (length ms1)); cbn [negb];
      rewrite ?negb_involutive, andb_assoc; reflexivity.
Qed.

(** X8.  If every response that stops for tool use holds at least one
    tool-use block, then in every model call of a run the messages
    alternate between user and assistant, beginning and ending with a
    user turn. *)
Theorem messages_alternate (self : AIGenerator) (query : string)
  (conversation_history : option string)
  (tools : option (list ToolDefinition)) (tmo : option ToolManager)
  (tr : Trace) :
  (forall tr' p r,
      client self tr' p = Return r ->
      stop_reason r = "tool_use" ->
      tool_uses (content r) <> []) ->
  exists ext : Trace,
    snd (generate_response self query conversation_history tools tmo tr)
    = tr ++ ext
    /\ Forall (fun p => roles_alternate true (p_messages p) = true
                        /\ Nat.odd (length (p_messages p)) = true)
         (model_calls ext).
Proof.
  intros Hblocks. unfold generate_response.
  apply (loop_calls_invariant self _ tools tmo
           (fun m => roles_alternate true m = true
                     /\ Nat.odd (length m) = true)).
  - intros m Hm. now rewrite api_params_messages.
  - intros m Hm. exact Hm.
  - intros m tr' r results [Halt Hodd] Hc Hstop Hlen.
    pose proof (Hblocks _ _ _ Hc Hstop) as Hne.
    destruct results as [|res results].
    { destruct (tool_uses (content r)); [contradiction|discriminate Hlen]. }
    unfold round_turns. rewrite roles_alternate_app, Halt, length_app.
    rewrite <- Nat.negb_odd, Hodd. cbn [negb andb length roles_alternate].
    split; [reflexivity|].
    rewrite Nat.add_comm. cbn [Nat.add]. now rewrite !Nat.odd_succ_succ.
  - split; reflexivity.
Qed.

Lemma messages_alternate_witness :
  let self := sample_generator
                (constant_client (Return mock_anthropic_response_with_tool)) in
  (forall tr' p r,
      client self tr' p = Return r ->
      stop_reason r = "tool_use" ->
      tool_uses (content r) <> [])
  /\ exists ext : Trace,
       snd (generate_response self "Test query" None (Some sample_tools)
              (Some mock_tool_manager) [])
       = [] ++ ext
       /\ Forall (fun p => roles_alternate true (p_messages p) = true
                           /\ Nat.odd (length (p_messages p)) = true)
            (model_calls ext).
Proof.
  intros self.
  assert (Hblocks : forall tr' p r,
             client self tr' p = Return r ->
             stop_reason r = "tool_use" ->
             tool_uses (content r) <> []).
  { intros tr' p r Hc _. injection Hc as <-. discriminate. }
  split; [exact Hblocks|].
  exact (messages_alternate self "Test query" None (Some sample_tools)
           (Some mock_tool_manager) [] Hblocks).
Defined.

(** ** Dispatches *)

Lemma dispatch_in_blocks (blocks : list ContentBlock) (name : string)
  (input : kwargs) :
  In (ToolCall name input) (map dispatch_event (tool_uses blocks)) ->
  exists id, In (ToolUseBlock id name input) blocks.
Proof.
  induction blocks as [|b rest IH]; [intros []|].
  destruct b as [t|id0 name0 input0]; cbn [tool_uses omap map].
  - intros H. destruct (IH H) as [id Hid]. exists id. now right.
  - intros [H|H].
    + injection H as -> ->. exists id0. now left.
    + destruct (IH H) as [id Hid]. exists id. now right.
Qed.

Lemma loop_dispatches_requested (self : AIGenerator) (sys : string)
  (tools : option (list ToolDefinition)) (tmo : option ToolManager)
  (n : nat) :
  forall (messages : list Message) (tr : Trace),
  exists ext : Trace,
    snd (tool_calling_loop self sys tools tmo n messages tr) = tr ++ ext
    /\ forall name input,
         In (ToolCall name input) ext ->
         exists pre p post r id,
           ext = pre ++ ModelCall p :: post
           /\ In (ToolCall name input) post
           /\ client self (tr ++ pre) p = Return r
           /\ stop_reason r = "tool_use"
           /\ In (ToolUseBlock id name input) (content r).
Proof.
  induction n as [|n IH]; intros messages tr.
  - rewrite final_call. eexists. split; [reflexivity|].
    intros name input [H|[]]. discriminate H.
  - destruct (loop_step_cases self sys tools tmo n messages tr)
      as [Hexit|[(tm & r & results & _ & Hc & Hstop & _ & Hstep)
                |(tm & r & e & j & id0 & name0 & input0
                  & _ & Hc & Hstop & _ & _ & Hcut)]].
    + rewrite Hexit. eexists. split; [reflexivity|].
      intros name input [H|[]]. discriminate H.
    + rewrite Hstep.
      match goal with
      | |- context [tool_calling_loop _ _ _ _ n ?m ?t] =>
          destruct (IH m t) as (ext & Hsnd & Hreq)
      end.
      eexists. split.
      * rewrite Hsnd, <- app_assoc. cbn [app]. reflexivity.
      * intros name input [H|H]; [discriminate H|].
        apply in_app_or in H as [H|H].
        -- destruct (dispatch_in_blocks _ _ _ H) as [id Hid].
           exists [], (api_params self messages sys tools),
             (map dispatch_event (tool_uses (content r)) ++ ext), r, id.
           rewrite app_nil_r. repeat split; try assumption.
           apply in_or_app. now left.
        -- destruct (Hreq name input H)
             as (pre & p & post & r' & id & -> & Hpost & Hc' & Hstop' & Hid).
           exists (ModelCall (api_params self messages sys tools)
                     :: map dispatch_event (tool_uses (content r)) ++ pre),
             p, post, r', id.
           repeat split; try assumption.
           ++ cbn [app]. now rewrite <- app_assoc.
           ++ rewrite <- Hc'. f_equal. rewrite <- !app_assoc.
              cbn [app]. now rewrite <- ?app_assoc.
    + rewrite Hcut. eexists. split; [reflexivity|].
      intros name input [H|H]; [discriminate H|].
      assert (Hin : In (ToolCall name input)
                      (map dispatch_event (tool_uses (content r)))).
      { rewrite <- (take_drop (S j) (tool_uses (content r))), map_app.
        apply in_or_app. now left. }
      destruct (dispatch_in_blocks _ _ _ Hin) as [id Hid].
      exists [], (api_params self messages sys tools),
        (map dispatch_event (take (S j) (tool_uses (content r)))), r, id.
      rewrite app_nil_r. repeat split; assumption.
Qed.

(** X9.  A run never dispatches a tool the model did not ask for: every
    dispatch of the run comes after a model call of the run whose
    response stopped for tool use and holds a tool-use block with the
    very name and arguments that were dispatched. *)
Theorem dispatches_were_requested (self : AIGenerator) (query : string)
  (conversation_history : option string)
  (tools : option (list ToolDefinition)) (tmo : option ToolManager)
  (tr : Trace) :
  exists ext : Trace,
    snd (generate_response self query conversation_history tools tmo tr)
    = tr ++ ext
    /\ forall name input,
         In (ToolCall name input) ext ->
         exists pre p post r id,
           ext = pre ++ ModelCall p :: post
           /\ In (ToolCall name input) post
           /\ client self (tr ++ pre) p = Return r
           /\ stop_reason r = "tool_use"
           /\ In (ToolUseBlock id name input) (content r).
Proof.
  unfold generate_response.
  exact (loop_dispatches_requested self _ tools tmo MAX_TOOL_ROUNDS _ tr).
Qed.

(** ** An empty list of tools *)

Lemma loop_empty_tools (self : AIGenerator) (sys : string)
  (tmo : option ToolManager) (n : nat) :
  forall (messages : list Message) (tr : Trace),
    tool_calling_loop self sys (Some []) tmo n messages tr
    = tool_calling_loop self sys None tmo n messages tr.
Proof.
  induction n as [|n IH]; intros messages tr; [reflexivity|].
  cbn [tool_calling_loop]. unfold bind, messages_create.
  change (api_params self messages sys (Some []))
    with (api_params self messages sys None).
  destruct (client self tr (api_params self messages sys None)) as [r|e];
    [|reflexivity].
  destruct (negb (String.eqb (stop_reason r) "tool_use")); [reflexivity|].
  destruct tmo as [tm|]; [|reflexivity].
  destruct (_execute_tools r tm _) as [[results|e] tr']; [|reflexivity].
  apply IH.
Qed.

(** X10.  An empty list of tools is treated like no tools at all: the
    run is the same, so no call carries [tools] or [tool_choice]. *)
Theorem empty_tools_like_none (self : AIGenerator) (query : string)
  (conversation_history : option string) (tmo : option ToolManager)
  (tr : Trace) :
  generate_response self query conversation_history (Some []) tmo tr
  = generate_response self query conversation_history None tmo tr.
Proof. unfold generate_response. apply loop_empty_tools. Qed.

(** ** One round of tools, then the answer *)



(** ** The tool batch on its own *)

(** X12.  [_execute_tools] dispatches the tool-use blocks of the response
    in block order and nothing else; text blocks add nothing.  If every
    dispatch returns, it returns one [tool_result] entry per tool-use
    block, in the same order, each with the identifier of its block and
    the text of its dispatch.  If a dispatch raises, it stops at that
    dispatch (later blocks are not dispatched) and raises the same
    exception. *)
Theorem execute_tools_one_result_per_request (response : Response)
  (tm : ToolManager) (tr : Trace) :
  (exists results : list ToolResult,
      _execute_tools response tm tr
      = (Return results,
         tr ++ map dispatch_event (tool_uses (content response)))
      /\ length results = length (tool_uses (content response))
      /\ forall (i : nat) id name input,
           tool_uses (content response) !! i = Some (id, name, input) ->
           exists text,
             execute_tool tm
               (tr ++ map dispatch_event
                        (take i (tool_uses (content response))))
               name input = Return text
             /\ results !! i
                = Some {| tr_type := "tool_result";
                          tool_use_id := id;
                          tr_content := text |})
  \/ (exists e j id name input,
        _execute_tools response tm tr
        = (Raise e,
           tr ++ map dispatch_event
                   (take (S j) (tool_uses (content response))))
        /\ tool_uses (content response) !! j = Some (id, name, input)
        /\ execute_tool tm
             (tr ++ map dispatch_event
                      (take j (tool_uses (content response))))
             name input = Raise e).
Proof.
  exact (execute_tools_loop_cases tm (content response) [] tr).
Qed.

(** ** Success and failure of a run *)

(** X13.  If the model always answers, and always with a response whose
    first content block is a text block, and the dispatches of the tool
    manager (if one is supplied) return text, then [generate_response]
    does not raise: it returns the leading text of the response to its
    last model call. *)
Theorem returns_text_when_responses_lead_with_text (self : AIGenerator)
  (query : string) (conversation_history : option string)
  (tools : option (list ToolDefinition)) (tmo : option ToolManager)
  (tr : Trace) :
  (forall tr' p, exists r text rest,
      client self tr' p = Return r /\ content r = TextBlock text :: rest) ->
  (forall tm, tmo = Some tm -> dispatch_returns tm) ->
  exists pre p r text rest,
    generate_response self query conversation_history tools tmo tr
    = (Return text, tr ++ pre ++ [ModelCall p])
    /\ client self (tr ++ pre) p = Return r
    /\ content r = TextBlock text :: rest.
Proof.
  intros Hlead Hret. unfold generate_response.
  destruct (loop_last_event self
              (build_system_content conversation_history) tools tmo
              MAX_TOOL_ROUNDS [user_turn query] tr)
    as (pre & [(p & Hrun)|(tm & name & input & e & Htm & He & _)]).
  - destruct (Hlead (tr ++ pre) p) as (r & text & rest & Hc & Hcontent).
    exists pre, p, r, text, rest. split; [|split; assumption].
    fold (user_turn query). rewrite Hrun, Hc. unfold first_text.
    now rewrite Hcontent.
  - destruct (Hret tm Htm (tr ++ pre) name input) as [text Htext].
    rewrite Htext in He. discriminate He.
Qed.

Lemma returns_text_when_responses_lead_with_text_witness :
  let self := sample_generator
                (constant_client (Return response_text_then_tool)) in
  (forall tr' p, exists r text rest,
      client self tr' p = Return r /\ content r = TextBlock text :: rest)
  /\ (forall tm, Some mock_tool_manager = Some tm -> dispatch_returns tm)
  /\ exists pre p,
       generate_response self "Test query" None (Some sample_tools)
         (Some mock_tool_manager) []
       = (Return "Let me search the course materials.",
          [] ++ pre ++ [ModelCall p]).
Proof.
  intros self.
  assert (Hlead : forall tr' p, exists r text rest,
             client self tr' p = Return r
             /\ content r = TextBlock text :: rest).
  { intros tr' p.
    exists response_text_then_tool, "Let me search the course materials.".
    eexists. split; reflexivity. }
  assert (Hret : forall tm,
             Some mock_tool_manager = Some tm -> dispatch_returns tm).
  { intros tm Htm. injection Htm as <-. intros tr' name input. now eexists. }
  split; [exact Hlead|]. split; [exact Hret|].
  destruct (returns_text_when_responses_lead_with_text self "Test query"
              None (Some sample_tools) (Some mock_tool_manager) [] Hlead Hret)
    as (pre & p & r & text & rest & Hrun & Hc & Hcontent).
  exists pre, p. rewrite Hrun.
  injection Hc as <-. injection Hcontent as <- _. reflexivity.
Defined.

(** X14.  A run of [generate_response] raises in four ways only, all at
    its last event.  At its last model call: the call itself raised; or
    its response holds no content block ([IndexError]); or the first
    block of its response is a tool-use block ([AttributeError] on
    [text]).  Or at its last dispatch: the tool manager raised. *)
Theorem failure_modes (self : AIGenerator) (query : string)
  (conversation_history : option string)
  (tools : option (list ToolDefinition)) (tmo : option ToolManager)
  (tr : Trace) (e : exn) :
  fst (generate_response self query conversation_history tools tmo tr)
  = Raise e ->
  exists pre,
    (exists p,
        snd (generate_response self query conversation_history tools tmo tr)
        = tr ++ pre ++ [ModelCall p]
        /\ (client self (tr ++ pre) p = Raise e
            \/ (exists r, client self (tr ++ pre) p = Return r
                          /\ content r = [] /\ e = IndexError)
            \/ (exists r id name input rest,
                  client self (tr ++ pre) p = Return r
                  /\ content r = ToolUseBlock id name input :: rest
                  /\ e = AttributeError "text")))
    \/ (exists (tm : ToolManager) name input,
          snd (generate_response self query conversation_history tools tmo tr)
          = tr ++ pre ++ [ToolCall name input]
          /\ tmo = Some tm
          /\ execute_tool tm (tr ++ pre) name input = Raise e).
Proof.
  unfold generate_response.
  destruct (loop_last_event self
              (build_system_content conversation_history) tools tmo
              MAX_TOOL_ROUNDS [user_turn query] tr)
    as (pre & [(p & Hrun)|(tm & name & input & e' & Htm & He & Hrun)]);
    fold (user_turn query); rewrite Hrun; cbn [fst snd];
    intros Hraise; exists pre.
  - left. exists p. split; [reflexivity|].
    destruct (client self (tr ++ pre) p) as [r|e'].
    + right. unfold first_text in Hraise.
      destruct (content r) as [|[text|id name input] rest] eqn:Hcontent.
      * left. exists r. injection Hraise as <-. auto.
      * discriminate Hraise.
      * right. exists r, id, name, input, rest. injection Hraise as <-. auto.
    + left. injection Hraise as <-. reflexivity.
  - right. exists tm, name, input. injection Hraise as <-. auto.
Qed.

Lemma failure_modes_witness :
  let self := sample_generator
                (constant_client (Return mock_anthropic_response_with_tool)) in
  let run := generate_response self "Test query" None (Some sample_tools)
               (Some failing_tool_manager) [] in
  fst run = Raise (RuntimeError "index unavailable")
  /\ exists pre name input,
       snd run = [] ++ pre ++ [ToolCall name input]
       /\ execute_tool failing_tool_manager ([] ++ pre) name input
          = Raise (RuntimeError "index unavailable").
Proof.
  intros self run.
  assert (Hraise : fst run = Raise (RuntimeError "index unavailable"))
    by reflexivity.
  split; [exact Hraise|].
  destruct (failure_modes self "Test query" None (Some sample_tools)
              (Some failing_tool_manager) []
              (RuntimeError "index unavailable") Hraise)
    as (pre & [(p & Hsnd & _)|(tm & name & input & Hsnd & Htm & He)]).
  - exfalso. change (snd run = [] ++ pre ++ [ModelCall p]) in Hsnd.
    apply (f_equal (fun l => last l)) in Hsnd.
    rewrite app_nil_l, last_snoc in Hsnd. discriminate Hsnd.
  - exists pre, name, input. injection Htm as <-. split; assumption.
Defined.

(** ** The size and the turns of the messages *)

Lemma length_round_turns (r : Response) (results : list ToolResult) :
  1 <= length (round_turns r results) <= 2.
Proof. unfold round_turns. destruct results; cbn [length]; lia. Qed.

Lemma loop_messages_length (self : AIGenerator) (sys : string)
  (tools : option (list ToolDefinition)) (tmo : option ToolManager)
  (n : nat) :
  forall (messages : list Message) (tr : Trace),
  exists ext : Trace,
    snd (tool_calling_loop self sys tools tmo n messages tr) = tr ++ ext
    /\ forall (i : nat) (p : ApiParams),
         model_calls ext !! i = Some p ->
         length messages + i <= length (p_messages p)
         <= length messages + 2 * i.
Proof.
  induction n as [|n IH]; intros messages tr.
  - rewrite final_call. eexists. split; [reflexivity|].
    intros [|i] p Hi; [|discriminate Hi].
    injection Hi as <-. cbn [base_call p_messages]. lia.
  - destruct (loop_step_cases self sys tools tmo n messages tr)
      as [Hexit|[(tm & r & results & _ & _ & _ & _ & Hstep)|(tm & r & e & j & id & name & input & _ & _ & _ & _ & _ & Hcut)]];
      [| |rewrite Hcut; eexists; split; [reflexivity|];
          rewrite model_calls_round_cut;
          intros [|i] p Hi; [|discriminate Hi];
          injection Hi as <-; rewrite api_params_messages; lia].
    + rewrite Hexit. eexists. split; [reflexivity|].
      intros [|i] p Hi; [|discriminate Hi].
      injection Hi as <-. rewrite api_params_messages. lia.
    + rewrite Hstep.
      match goal with
      | |- context [tool_calling_loop _ _ _ _ n ?m ?t] =>
          destruct (IH m t) as (ext & Hsnd & Hlen)
      end.
      eexists. split.
      * rewrite Hsnd, <- app_assoc. cbn [app]. reflexivity.
      * rewrite model_calls_round. intros [|i] p Hi.
        -- injection Hi as <-. rewrite api_params_messages. lia.
        -- specialize (Hlen i p Hi). rewrite length_app in Hlen.
           pose proof (length_round_turns r results). lia.
Qed.

(** X15.  The messages grow by one or two turns per round: the call at
    position [i] of a run (counting from 0) sees at least [i + 1] and at
    most [2 * i + 1] messages, so no call sees more than five. *)
Theorem messages_length_bounds (self : AIGenerator) (query : string)
  (conversation_history : option string)
  (tools : option (list ToolDefinition)) (tmo : option ToolManager)
  (tr : Trace) :
  exists ext : Trace,
    snd (generate_response self query conversation_history tools tmo tr)
    = tr ++ ext
    /\ forall (i : nat) (p : ApiParams),
         model_calls ext !! i = Some p ->
         i + 1 <= length (p_messages p) <= 2 * i + 1
         /\ length (p_messages p) <= 5.
Proof.
  unfold generate_response.
  destruct (loop_messages_length self
              (build_system_content conversation_history) tools tmo
              MAX_TOOL_ROUNDS [user_turn query] tr) as (ext & Hsnd & Hlen).
  destruct (loop_tools_by_index self
              (build_system_content conversation_history) tools tmo
              MAX_TOOL_ROUNDS [user_turn query] tr) as (ext' & Hsnd' & Hidx).
  fold (user_turn query) in Hsnd, Hsnd'.
  rewrite Hsnd in Hsnd'. apply app_inv_head in Hsnd'. subst ext'.
  exists ext. split; [exact Hsnd|].
  intros i p Hi. specialize (Hlen i p Hi). cbn [length] in Hlen.
  destruct (Hidx i p Hi) as (_ & _ & Hle). unfold MAX_TOOL_ROUNDS in Hle.
  lia.
Qed.

(** X16.  After the query, the messages of every model call hold only
    assistant turns with the content of a response and user turns with a
    non-empty list of tool results: an empty results turn is never
    sent. *)
Theorem no_empty_results_turn (self : AIGenerator) (query : string)
  (conversation_history : option string)
  (tools : option (list ToolDefinition)) (tmo : option ToolManager)
  (tr : Trace) :
  exists ext : Trace,
    snd (generate_response self query conversation_history tools tmo tr)
    = tr ++ ext
    /\ Forall (fun p => exists rest,
                 p_messages p = user_turn query :: rest
                 /\ Forall (fun m =>
                      (exists r, m = assistant_turn r)
                      \/ (exists res results,
                            m = results_turn (res :: results))) rest)
         (model_calls ext).
Proof.
  unfold generate_response.
  apply (loop_calls_invariant self _ tools tmo
           (fun m => exists rest,
              m = user_turn query :: rest
              /\ Forall (fun m =>
                   (exists r, m = assistant_turn r)
                   \/ (exists res results,
                         m = results_turn (res :: results))) rest)).
  - intros m Hm. now rewrite api_params_messages.
  - intros m Hm. exact Hm.
  - intros m tr' r results (rest & -> & Hrest) _ _ _.
    exists (rest ++ round_turns r results). split; [reflexivity|].
    apply Forall_app. split; [exact Hrest|].
    unfold round_turns. destruct results as [|res results].
    + constructor; [left; now exists r|constructor].
    + constructor; [left; now exists r|].
      constructor; [right; now exists res, results|constructor].
  - exists []. split; [reflexivity|constructor].
Qed.
